(** * The smart-home agent worker: entity search and light control

    A shallow embedding of the [HomeAssistant] class of [agent_worker.py]:
    the REST calls it makes, the fuzzy device search and the
    write-then-read-back light command.

    Python values that come out of [response.json()] are kept dynamically
    typed ([jvalue]); the operations the code applies to them (subscript,
    [.get], [.lower()], iteration) raise as the interpreter does.  The
    platform is the only source of effects: every HTTP request is appended
    to a trace, and what the platform answers may depend on all the requests
    it has seen. *)

From Stdlib Require Import ZArith Lia Ascii String.
From stdpp Require Import base strings list pretty sorting.

#[local] Set Warnings "-register-all".

Local Open Scope string_scope.
Local Open Scope Z_scope.

(** ** Python values *)

(** What [json.loads] can produce.  A float is kept as mantissa and binary
    exponent; a dict is the list of its items in insertion order (its keys
    are distinct, a lookup reads the first item with the key). *)
Inductive jvalue : Type :=
  | JNull
  | JBool (b : bool)
  | JInt (n : Z)
  | JFloat (m e : Z)
  | JStr (s : string)
  | JArr (items : list jvalue)
  | JObj (fields : list (string * jvalue)).

(** [type(v).__name__] *)
Definition type_name (v : jvalue) : string :=
  match v with
  | JNull => "NoneType"
  | JBool _ => "bool"
  | JInt _ => "int"
  | JFloat _ _ => "float"
  | JStr _ => "str"
  | JArr _ => "list"
  | JObj _ => "dict"
  end.

(** ** Exceptions *)

(** An exception instance: its class and what [str(e)] gives. *)
Record exception : Type := Exception { exn_class : string; exn_str : string }.

Inductive result (A : Type) : Type :=
  | Ok (a : A)
  | Raise (e : exception).
Arguments Ok {A} a.
Arguments Raise {A} e.

Definition rbind {A B} (m : result A) (k : A -> result B) : result B :=
  match m with
  | Ok a => k a
  | Raise e => Raise e
  end.

Declare Scope result_scope.
Delimit Scope result_scope with result.
Notation "'let?' x := m 'in' k" := (rbind m (fun x => k))
  (at level 10, x name, m at level 100, k at level 200) : result_scope.

(** The line character of the f-strings. *)
Definition nl : string := String (ascii_of_nat 10) EmptyString.

(** ** Operations on dynamically typed values *)

Fixpoint assoc (key : string) (fields : list (string * jvalue)) : option jvalue :=
  match fields with
  | [] => None
  | (k, v) :: rest => if String.eqb k key then Some v else assoc key rest
  end.

(** [v[key]] for a string key (messages as CPython 3.11 words them). *)
Definition getitem (v : jvalue) (key : string) : result jvalue :=
  match v with
  | JObj fields =>
      match assoc key fields with
      | Some x => Ok x
      | None => Raise (Exception "KeyError" ("'" +:+ key +:+ "'"))
      end
  | JArr _ =>
      Raise (Exception "TypeError" "list indices must be integers or slices, not str")
  | JStr _ =>
      Raise (Exception "TypeError" "string indices must be integers, not 'str'")
  | _ =>
      Raise (Exception "TypeError" ("'" +:+ type_name v +:+ "' object is not subscriptable"))
  end.

(** [v.get(key, default)] *)
Definition get (v : jvalue) (key : string) (default : jvalue) : result jvalue :=
  match v with
  | JObj fields =>
      match assoc key fields with
      | Some x => Ok x
      | None => Ok default
      end
  | _ =>
      Raise (Exception "AttributeError"
               ("'" +:+ type_name v +:+ "' object has no attribute 'get'"))
  end.

(** The receiver of [v.lower()]: only a [str] has the method. *)
Definition expect_str (v : jvalue) : result string :=
  match v with
  | JStr s => Ok s
  | _ =>
      Raise (Exception "AttributeError"
               ("'" +:+ type_name v +:+ "' object has no attribute 'lower'"))
  end.

Fixpoint chars (s : string) : list jvalue :=
  match s with
  | EmptyString => []
  | String c rest => JStr (String c EmptyString) :: chars rest
  end.

(** [for x in v]: the values the loop variable takes. *)
Definition iterate (v : jvalue) : result (list jvalue) :=
  match v with
  | JArr items => Ok items
  | JObj fields => Ok (map (fun kv => JStr (fst kv)) fields)
  | JStr s => Ok (chars s)
  | _ =>
      Raise (Exception "TypeError" ("'" +:+ type_name v +:+ "' object is not iterable"))
  end.

(** ** [str.strip()] *)

(** A [string] stands for a Python [str] whose code points are below 256,
    one character each.  [is_space] is [str.isspace] on those. *)
Definition is_space (c : ascii) : bool :=
  let n := N_of_ascii c in
  ((9 <=? n) && (n <=? 13) || (28 <=? n) && (n <=? 32)
   || (n =? 133) || (n =? 160))%N.

Fixpoint lstrip (s : string) : string :=
  match s with
  | EmptyString => EmptyString
  | String c rest => if is_space c then lstrip rest else s
  end.

Fixpoint rstrip (s : string) : string :=
  match s with
  | EmptyString => EmptyString
  | String c rest =>
      match rstrip rest with
      | EmptyString => if is_space c then EmptyString else String c EmptyString
      | rest' => String c rest'
      end
  end.

Definition strip (s : string) : string := rstrip (lstrip s).

(** ** The platform and the world *)

Definition headers_t : Type := list (string * string).

Inductive request : Type :=
  | POST (url : string) (headers : headers_t) (json : jvalue)
  | GET (url : string) (headers : headers_t).

(** [json] is what [response.json()] does: the decoded body, or the
    decoding error it raises. *)
Record response : Type := Response {
  status_code : Z;
  text : string;
  json : result jvalue
}.

(** The platform answers a request, knowing the requests made before it,
    with a response or with the exception [requests] raises. *)
Definition platform : Type := list request -> request -> result response.

Record world : Type := World {
  trace : list request;
  stdout : list string
}.

Definition M (A : Type) : Type := world -> result A * world.

Definition ret {A} (a : A) : M A := fun w => (Ok a, w).

Definition bind {A B} (m : M A) (k : A -> M B) : M B :=
  fun w =>
    match m w with
    | (Ok a, w') => k a w'
    | (Raise e, w') => (Raise e, w')
    end.

Definition lift {A} (r : result A) : M A := fun w => (r, w).

(** [try: body  except Exception as e: handler(e)] *)
Definition try_except {A} (body : M A) (handler : exception -> M A) : M A :=
  fun w =>
    match body w with
    | (Ok a, w') => (Ok a, w')
    | (Raise e, w') => handler e w'
    end.

Declare Scope monad_scope.
Delimit Scope monad_scope with monad.
Notation "'let*' x := m 'in' k" := (bind m (fun x => k))
  (at level 10, x name, m at level 100, k at level 200) : monad_scope.

Definition print (line : string) : M unit :=
  fun w => (Ok tt, {| trace := trace w; stdout := (stdout w ++ [line])%list |}).

Definition send (P : platform) (req : request) : M response :=
  fun w => (P (trace w) req, {| trace := (trace w ++ [req])%list; stdout := stdout w |}).

(** ** The [HomeAssistant] class *)

(** The instance: [base_url] and [headers] as [__init__] sets them from the
    environment. *)
Record HomeAssistant : Type := {
  base_url : string;
  headers : headers_t
}.

(** One candidate of the search: the dict appended to [matching_entities]. *)
Record candidate : Type := Candidate {
  entity_id : string;
  entity_name : string;
  entity_area : option string;
  match_score : Z
}.

Definition candidate_json (c : candidate) : jvalue :=
  JObj [("entity_id", JStr (entity_id c));
        ("entity_name", JStr (entity_name c));
        ("entity_area", match entity_area c with
                        | Some a => JStr a
                        | None => JNull
                        end);
        ("match_score", JInt (match_score c))].

(** ** [int(n / d)] *)

(** The integer nearest to [n / d], a tie going to the even one ([0 < d]). *)
Definition nearest_even (n d : Z) : Z :=
  let q := n / d in
  let r := n mod d in
  if 2 * r <? d then q
  else if d <? 2 * r then q + 1
  else if Z.even q then q else q + 1.

(** The fraction [a / (d * 2^e)], for any sign of [e], as a numerator and
    a denominator. *)
Definition scaled (a d e : Z) : Z * Z :=
  if 0 <=? e then (a, d * 2 ^ e) else (a * 2 ^ (- e), d).

(** The exponent of the double nearest to [a / d], for [0 < a] and
    [0 < d]: the [e] with [2^52 <= a / (d * 2^e) < 2^53]. *)
Definition float_exponent (a d : Z) : Z :=
  let k := Z.log2 a - Z.log2 d in
  let '(num, den) := scaled a d k in
  (if num <? den then k - 1 else k) - 52.

(** [int(n / d)] for two ints, [0 < d].  The true division of two ints
    gives the double nearest to the exact quotient, a tie going to the even
    mantissa, and raises [OverflowError] when that is beyond the doubles;
    [int()] cuts the double toward zero.  (A quotient that is not zero is at
    least [1 / d] in size, far above the subnormal doubles for the [d] of
    this program.) *)
Definition int_true_div (n d : Z) : result Z :=
  let a := Z.abs n in
  if a =? 0 then Ok 0
  else
    let e := float_exponent a d in
    let '(num, den) := scaled a d e in
    let m := nearest_even num den in
    if 0 <=? e then
      if 2 ^ 1024 <=? m * 2 ^ e then
        Raise (Exception "OverflowError"
                 "integer division result too large for a float")
      else Ok (Z.sgn n * (m * 2 ^ e))
    else Ok (Z.sgn n * (m / 2 ^ (- e))).

(** The exact quotient [brightness * 255 / 100] cut toward zero.  This is
    the value of [int(brightness * 255 / 100)] as long as
    [|brightness * 255| < 2^53] (lemma [int_true_div_exact]); what the code
    computes for any int is [int_true_div (brightness * 255) 100]. *)
Definition brightness_value (brightness : Z) : Z := Z.quot (brightness * 255) 100.

(** [list.sort(key=lambda x: x['match_score'], reverse=True)]: the stable
    sort by decreasing key, here as insertion from the right. *)
Fixpoint insert_desc (c : candidate) (l : list candidate) : list candidate :=
  match l with
  | [] => [c]
  | d :: rest =>
      if match_score d <=? match_score c then c :: l
      else d :: insert_desc c rest
  end.

Definition sort_desc (l : list candidate) : list candidate :=
  foldr insert_desc [] l.

Section HomeAssistant.

(** The home-automation platform behind [requests]. *)
Variable P : platform.
(** [fuzz.partial_ratio] of thefuzz. *)
Variable partial_ratio : string -> string -> Z.
(** [str.lower] *)
Variable lower : string -> string.
(** [json.dumps] *)
Variable json_dumps : jvalue -> string.
(** [str(v)] of a value that is neither a [str] nor [None]. *)
Variable str_other : jvalue -> string.

Variable self : HomeAssistant.

Local Open Scope monad_scope.

(** [f"{v}"] *)
Definition py_str (v : jvalue) : string :=
  match v with
  | JStr s => s
  | JNull => "None"
  | _ => str_other v
  end.

Definition service_url (domain service : string) : string :=
  base_url self +:+ "/api/services/" +:+ domain +:+ "/" +:+ service.

Definition service_request (domain service entity_id : string)
    (kwargs : list (string * jvalue)) : request :=
  POST (service_url domain service) (headers self)
       (JObj (("entity_id", JStr entity_id) :: kwargs)).

Definition call_service (domain service entity_id : string)
    (kwargs : list (string * jvalue)) : M bool :=
  let* response := send P (service_request domain service entity_id kwargs) in
  if status_code response =? 200 then ret true
  else
    let* _ := print ("Error: " +:+ pretty (status_code response) +:+ " - " +:+ text response) in
    ret false.

Definition area_request (entity_id : string) : request :=
  POST (base_url self +:+ "/api/template") (headers self)
       (JObj [("template", JStr ("{{ area_name('" +:+ entity_id +:+ "') }}"))]).

Definition get_entity_area (entity_id : string) : M (option string) :=
  let* response := send P (area_request entity_id) in
  if negb (status_code response =? 200) then
    let* _ := print ("Error rendering template: " +:+ pretty (status_code response)) in
    let* _ := print ("Response content: " +:+ text response) in
    ret None
  else
    let area_name := strip (text response) in
    ret (if String.eqb area_name "" then None else Some area_name).

(** The dict [data] of [turn_on_light] when the conversion is exact. *)
Definition turn_on_kwargs (brightness : option Z) : list (string * jvalue) :=
  match brightness with
  | Some b => [("brightness", JInt (brightness_value b))]
  | None => []
  end.

(** Lines 69 to 73: the dict [data], or the exception the conversion
    raises. *)
Definition turn_on_data (brightness : option Z) : result (list (string * jvalue)) :=
  match brightness with
  | Some b =>
      (let? value := int_true_div (b * 255) 100 in
       Ok [("brightness", JInt value)])%result
  | None => Ok []
  end.

Definition turn_on_light (entity_id : string) (brightness : option Z) : M bool :=
  let* data := lift (turn_on_data brightness) in
  call_service "light" "turn_on" entity_id data.

Definition turn_off_light (entity_id : string) : M bool :=
  call_service "light" "turn_off" entity_id [].

Definition state_request (entity_id : string) : request :=
  GET (base_url self +:+ "/api/states/" +:+ entity_id) (headers self).

(** Returns [None] ([JNull]) on a status other than 200. *)
Definition simple_get_state (entity_id : string) : M jvalue :=
  let* response := send P (state_request entity_id) in
  if status_code response =? 200 then
    lift (let? data := json response in getitem data "state")%result
  else
    let* _ := print ("Error: " +:+ pretty (status_code response) +:+ " - " +:+ text response) in
    ret JNull.

(** The lines after the write: read the state back and report it. *)
Definition report_state (entity_id result : string) : M string :=
  let* new_state := simple_get_state entity_id in
  ret (result +:+ nl +:+ "Current state of " +:+ entity_id +:+ ": " +:+ py_str new_state).

Definition change_light_state_body (entity_id : string) (state : bool)
    (brightness : option Z) : M string :=
  let result := "Changing light state for " +:+ entity_id +:+ nl in
  if state then
    let* ok := turn_on_light entity_id brightness in
    if ok then
      let result := result +:+ "Turned light on" in
      let result :=
        match brightness with
        | Some b => result +:+ " with brightness set to " +:+ pretty b +:+ "%"
        | None => result
        end in
      report_state entity_id result
    else ret ("Failed to turn on " +:+ entity_id)
  else
    let* ok := turn_off_light entity_id in
    if ok then
      let result := result +:+ "Turned light off" in
      report_state entity_id result
    else ret ("Failed to turn off " +:+ entity_id).

Definition change_light_state (entity_id : string) (state : bool)
    (brightness : option Z) : M string :=
  try_except (change_light_state_body entity_id state brightness)
    (fun e => ret ("Error changing light state: " +:+ exn_str e)).

Definition states_request : request :=
  GET (base_url self +:+ "/api/states") (headers self).

(** Lines 187 to 193: the two fields the scores are computed on. *)
Definition entity_fields (entity : jvalue) : result (string * string) :=
  (let? id_v := getitem entity "entity_id" in
   let? attributes := getitem entity "attributes" in
   let? name_v := get attributes "friendly_name" (JStr "") in
   let? entity_id := expect_str id_v in
   let? friendly_name := expect_str name_v in
   Ok (entity_id, friendly_name))%result.

Definition id_score (query entity_id : string) : Z :=
  partial_ratio (lower query) (lower entity_id).

Definition name_score (query friendly_name : string) : Z :=
  partial_ratio (lower query) (lower friendly_name).

(** One pass of the loop body over [entity]. *)
Definition search_step (query : string) (matching_entities : list candidate)
    (entity : jvalue) : M (list candidate) :=
  let* fields := lift (entity_fields entity) in
  let entity_id := fst fields in
  let friendly_name := snd fields in
  let id_score := id_score query entity_id in
  let name_score := name_score query friendly_name in
  if (70 <? id_score) || (70 <? name_score) then
    let* area := get_entity_area entity_id in
    ret (matching_entities ++
           [Candidate entity_id friendly_name area (Z.max id_score name_score)])%list
  else ret matching_entities.

Fixpoint search_loop (query : string) (all_entities : list jvalue)
    (matching_entities : list candidate) : M (list candidate) :=
  match all_entities with
  | [] => ret matching_entities
  | entity :: rest =>
      let* matching_entities := search_step query matching_entities entity in
      search_loop query rest matching_entities
  end.

(** The list handed to [json.dumps] on the 200 branch. *)
Definition search_matches (query : string) (response : response)
    : M (list candidate) :=
  let* all_entities := lift (let? data := json response in iterate data)%result in
  let* matching_entities := search_loop query all_entities [] in
  ret (sort_desc matching_entities).

Definition search_smart_home_devices (query : string) : M string :=
  let* response := send P states_request in
  if status_code response =? 200 then
    let* matching_entities := search_matches query response in
    ret (json_dumps (JArr (map candidate_json matching_entities)))
  else
    ret (json_dumps
           (JObj [("error",
                   JStr ("Error: " +:+ pretty (status_code response)
                         +:+ " - " +:+ text response))])).

(** The [area] item of the [get_entity_info] payload. *)
Definition area_json (area : option string) : jvalue :=
  match area with
  | Some a => JStr a
  | None => JNull
  end.

(** The items of the dict literal are evaluated in order: [data['state']],
    then the placement lookup, then [data['attributes']]. *)
Definition get_entity_info (entity_id : string) : M string :=
  let* response := send P (state_request entity_id) in
  if status_code response =? 200 then
    let* data := lift (json response) in
    let* state := lift (getitem data "state") in
    let* area := get_entity_area entity_id in
    let* attributes := lift (getitem data "attributes") in
    ret (json_dumps
           (JObj [("state", state); ("area", area_json area);
                  ("attributes", attributes)]))
  else
    ret (json_dumps
           (JObj [("error",
                   JStr ("Error: " +:+ pretty (status_code response)
                         +:+ " - " +:+ text response))])).

End HomeAssistant.

(** ** Vocabulary of the statements *)

(** The order the sort establishes: no later candidate scores higher. *)
Definition score_ge (c d : candidate) : Prop := match_score d <= match_score c.

(** The fields of a candidate that the snapshot entry alone decides. *)
Definition candidate_entry (c : candidate) : string * string :=
  (entity_id c, entity_name c).

(** The write command of a [change_light_state] call. *)
Definition write_request (self : HomeAssistant) (entity_id : string)
    (state : bool) (brightness : option Z) : request :=
  if state then service_request self "light" "turn_on" entity_id (turn_on_kwargs brightness)
  else service_request self "light" "turn_off" entity_id [].

(** The call is one whose conversion is exact: the light is turned off, or
    no brightness is given, or [|brightness * 255| < 2^53] (every percent
    from 0 to 100 is). *)
Definition exact_range (state : bool) (brightness : option Z) : Prop :=
  match state, brightness with
  | true, Some b => Z.abs (b * 255) < 2 ^ 53
  | _, _ => True
  end.

(** A request to [/api/services/...]: a write command. *)
Definition is_service_call (self : HomeAssistant) (req : request) : bool :=
  match req with
  | POST url _ _ => String.prefix (base_url self +:+ "/api/services/") url
  | GET _ _ => false
  end.

(** The [brightness] item of a request body, when it has one. *)
Definition request_brightness (req : request) : option jvalue :=
  match req with
  | POST _ _ (JObj fields) => assoc "brightness" fields
  | _ => None
  end.

Definition action_name (state : bool) : string := if state then "on" else "off".

(** [result] as it stands when the write has succeeded. *)
Definition written_message (entity_id : string) (state : bool)
    (brightness : option Z) : string :=
  let result := "Changing light state for " +:+ entity_id +:+ nl in
  if state then
    let result := result +:+ "Turned light on" in
    match brightness with
    | Some b => result +:+ " with brightness set to " +:+ pretty b +:+ "%"
    | None => result
    end
  else result +:+ "Turned light off".

(** The message of a call that went through, reporting [token] as the
    state read back. *)
Definition changed_message (entity_id : string) (state : bool)
    (brightness : option Z) (token : string) : string :=
  written_message entity_id state brightness
  +:+ nl +:+ "Current state of " +:+ entity_id +:+ ": " +:+ token.

(** The world after one more request. *)
Definition sent (w : world) (req : request) : world :=
  {| trace := (trace w ++ [req])%list; stdout := stdout w |}.

(** The world after one more printed line. *)
Definition printed (w : world) (line : string) : world :=
  {| trace := trace w; stdout := (stdout w ++ [line])%list |}.

(** [round(n / d)] as Python rounds a quotient that is exactly representable
    or half way: to the nearest integer, a tie to the even one ([0 < d]). *)
Definition py_round_div (n d : Z) : Z :=
  let q := n / d in
  let r := n mod d in
  if 2 * r <? d then q
  else if d <? 2 * r then q + 1
  else if Z.even q then q else q + 1.

(** The brightness the specification asks for: [round(percent * 255 / 100)]. *)
Definition spec_brightness_value (percent : Z) : Z := py_round_div (percent * 255) 100.

(** The score of a snapshot entry, given as its identifier and its friendly
    name: the larger of the two field scores. *)
Definition entry_score (partial_ratio : string -> string -> Z)
    (lower : string -> string) (query : string) (f : string * string) : Z :=
  Z.max (id_score partial_ratio lower query (fst f))
        (name_score partial_ratio lower query (snd f)).

(** The snapshot is a list of entries the loop can read: [entries] holds the
    identifier and the friendly name of each, in order. *)
Definition decoded (snapshot : list jvalue) (entries : list (string * string)) : Prop :=
  Forall2 (fun e f => entity_fields e = Ok f) snapshot entries.

(** Candidate [c] was made from the entry with fields [f]. *)
Definition made_from (score : string * string -> Z) (c : candidate)
    (f : string * string) : Prop :=
  candidate_entry c = f /\ match_score c = score f.

(** ** Example installations *)

Definition ha0 : HomeAssistant :=
  {| base_url := "http://homeassistant.local:8123";
     headers := [("Authorization", "Bearer secret");
                 ("Content-Type", "application/json")] |}.

(** Before any request. *)
Definition w0 : world := {| trace := []; stdout := [] |}.

Definition state_body (state : string) : jvalue :=
  JObj [("state", JStr state); ("attributes", JObj [])].

(** Accepts every write and reports every state as on. *)
Definition platform_accepting : platform :=
  fun _ req =>
    match req with
    | POST _ _ _ => Ok (Response 200 "[]" (Ok (JArr [])))
    | GET _ _ => Ok (Response 200 "" (Ok (state_body "on")))
    end.

(** Answers every request with 503. *)
Definition platform_unavailable : platform :=
  fun _ _ =>
    Ok (Response 503 "Service Unavailable"
          (Raise (Exception "JSONDecodeError"
                    "Expecting value: line 1 column 1 (char 0)"))).

(** Accepts every write and is unreachable for every read. *)
Definition platform_dropping : platform :=
  fun _ req =>
    match req with
    | POST _ _ _ => Ok (Response 200 "[]" (Ok (JArr [])))
    | GET _ _ => Raise (Exception "ConnectionError" "Connection aborted.")
    end.

(** Accepts every write and answers every read with 404. *)
Definition platform_forgetting : platform :=
  fun _ req =>
    match req with
    | POST _ _ _ => Ok (Response 200 "[]" (Ok (JArr [])))
    | GET _ _ =>
        Ok (Response 404 "Entity not found."
              (Raise (Exception "JSONDecodeError"
                        "Expecting value: line 1 column 1 (char 0)")))
    end.

Definition snapshot_entry (entity_id : string) (friendly_name : option string)
    : jvalue :=
  JObj [("entity_id", JStr entity_id);
        ("state", JStr "off");
        ("attributes",
         JObj match friendly_name with
              | Some n => [("friendly_name", JStr n)]
              | None => []
              end)].

Definition snapshot0 : list jvalue :=
  [snapshot_entry "light.living_room" (Some "Living Room");
   snapshot_entry "light.kitchen_sink" (Some "Kitchen Sink Light");
   snapshot_entry "sensor.hall" None;
   snapshot_entry "switch.kitchen_fan" (Some "Fan")].

Definition entries0 : list (string * string) :=
  [("light.living_room", "Living Room");
   ("light.kitchen_sink", "Kitchen Sink Light");
   ("sensor.hall", "");
   ("switch.kitchen_fan", "Fan")].

(** Serves [snapshot0] and renders every area as [Kitchen] followed by a
    line end. *)
Definition platform_home : platform :=
  fun _ req =>
    match req with
    | GET _ _ => Ok (Response 200 "" (Ok (JArr snapshot0)))
    | POST _ _ _ => Ok (Response 200 ("Kitchen" +:+ nl) (Raise (Exception "JSONDecodeError" "Expecting value: line 1 column 1 (char 0)")))
    end.

(** Serves [snapshot0]; the template endpoint renders nothing for a light
    and answers 500 for anything else. *)
Definition platform_no_areas : platform :=
  fun _ req =>
    match req with
    | GET _ _ => Ok (Response 200 "" (Ok (JArr snapshot0)))
    | POST _ _ (JObj [(_, JStr template)]) =>
        if String.prefix "{{ area_name('light." template
        then Ok (Response 200 nl (Ok JNull))
        else Ok (Response 500 "Internal Server Error" (Ok JNull))
    | POST _ _ _ => Ok (Response 500 "Internal Server Error" (Ok JNull))
    end.

(** Stand-ins for the library functions in the examples: a scorer that gives
    100 when the query occurs in the text and 0 when it does not, the
    lower-casing of the ASCII letters, and constant renderings. *)
Definition toy_ratio (query s : string) : Z :=
  match String.index 0 query s with
  | Some _ => 100
  | None => 0
  end.

Definition ascii_lower (c : ascii) : ascii :=
  let n := N_of_ascii c in
  if ((65 <=? n) && (n <=? 90))%N then ascii_of_N (n + 32) else c.

Fixpoint toy_lower (s : string) : string :=
  match s with
  | EmptyString => EmptyString
  | String c rest => String (ascii_lower c) (toy_lower rest)
  end.

Definition toy_dumps (v : jvalue) : string :=
  match v with
  | JArr items => "array of " +:+ pretty (Z.of_nat (length items))
  | JObj fields => "object of " +:+ pretty (Z.of_nat (length fields))
  | _ => "scalar"
  end.

Definition toy_str (v : jvalue) : string := type_name v.

(** ** The constructor *)

(** [str(v)] of what [os.getenv] returns. *)
Definition env_str (v : option string) : string :=
  match v with
  | Some s => s
  | None => "None"
  end.

(** [HomeAssistant.__init__], over the environment [getenv].  [base_url] is
    only ever interpolated into an f-string, so it is kept as the text the
    f-string shows (a variable that is not set shows as [None]). *)
Definition HomeAssistant_init (getenv : string -> option string) : HomeAssistant :=
  {| base_url := env_str (getenv "HOME_ASSISTANT_BASE_URL");
     headers :=
       [("Authorization", "Bearer " +:+ env_str (getenv "HOME_ASSISTANT_ACCESS_TOKEN"));
        ("Content-Type", "application/json")] |}.

Definition request_url (req : request) : string :=
  match req with
  | POST url _ _ => url
  | GET url _ => url
  end.

Definition request_headers (req : request) : headers_t :=
  match req with
  | POST _ h _ => h
  | GET _ h => h
  end.

(** The request goes to a path under the base URL of the instance and
    carries its headers. *)
Definition addressed (self : HomeAssistant) (req : request) : Prop :=
  String.prefix (base_url self +:+ "/api/") (request_url req) = true
  /\ request_headers req = headers self.

(** A placement that [str.strip] would leave as it is, and that is not the
    empty string. *)
Definition clean_name (a : string) : Prop := strip a = a /\ a <> "".

(** Reports every state as on with no attributes, and renders every area as
    [Kitchen] followed by a line end. *)
Definition platform_kitchen : platform :=
  fun _ req =>
    match req with
    | GET _ _ => Ok (Response 200 "" (Ok (state_body "on")))
    | POST _ _ _ => Ok (Response 200 ("Kitchen" +:+ nl) (Ok (JStr "Kitchen")))
    end.

(** Answers a state read with a body that has no [state]. *)
Definition platform_stateless : platform :=
  fun _ req =>
    match req with
    | GET _ _ => Ok (Response 200 "" (Ok (JObj [("attributes", JObj [])])))
    | POST _ _ _ => Ok (Response 200 "Kitchen" (Ok (JStr "Kitchen")))
    end.

(** Answers a state read with a body that has no [attributes]. *)
Definition platform_bare : platform :=
  fun _ req =>
    match req with
    | GET _ _ => Ok (Response 200 "" (Ok (JObj [("state", JStr "on")])))
    | POST _ _ _ => Ok (Response 200 "Kitchen" (Ok (JStr "Kitchen")))
    end.

(** Answers every read with 200 and a JSON object that is no snapshot. *)
Definition platform_message : platform :=
  fun _ req =>
    match req with
    | GET _ _ => Ok (Response 200 "" (Ok (JObj [("message", JStr "API running.")])))
    | POST _ _ _ => Ok (Response 200 "Kitchen" (Ok (JStr "Kitchen")))
    end.

(** Serves a snapshot with no entries. *)
Definition platform_empty : platform :=
  fun _ req =>
    match req with
    | GET _ _ => Ok (Response 200 "[]" (Ok (JArr [])))
    | POST _ _ _ => Ok (Response 200 "Kitchen" (Ok (JStr "Kitchen")))
    end.

(** [snapshot0] with the items other than the two fields changed. *)
Definition snapshot0' : list jvalue :=
  [JObj [("attributes", JObj [("friendly_name", JStr "Living Room");
                              ("brightness", JInt 180)]);
         ("entity_id", JStr "light.living_room");
         ("state", JStr "on")];
   JObj [("entity_id", JStr "light.kitchen_sink");
         ("attributes", JObj [("friendly_name", JStr "Kitchen Sink Light")])];
   JObj [("entity_id", JStr "sensor.hall");
         ("state", JFloat 43 (-1));
         ("attributes", JObj [("unit_of_measurement", JStr "C")])];
   snapshot_entry "switch.kitchen_fan" (Some "Fan")].

(** Two entries of [snapshot0], then one without [entity_id]. *)
Definition snapshot_broken : list jvalue :=
  [snapshot_entry "light.kitchen_sink" (Some "Kitchen Sink Light");
   snapshot_entry "light.living_room" (Some "Living Room");
   JObj [("state", JStr "off"); ("attributes", JObj [])];
   snapshot_entry "switch.kitchen_fan" (Some "Fan")].

Definition platform_broken : platform :=
  fun _ req =>
    match req with
    | GET _ _ => Ok (Response 200 "" (Ok (JArr snapshot_broken)))
    | POST _ _ _ => Ok (Response 200 "Kitchen" (Ok (JStr "Kitchen")))
    end.

(** An environment with no variable set. *)
Definition env_unset (name : string) : option string := None.

(** From [w] to [w'] requests were only added, each of them addressed. *)
Definition only_added (self : HomeAssistant) (w w' : world) : Prop :=
  exists news,
    trace w' = (trace w ++ news)%list /\ Forall (addressed self) news.

(** A computation that only adds addressed requests, whatever it returns. *)
Definition tidy (self : HomeAssistant) {A} (m : M A) : Prop :=
  forall w, only_added self w (snd (m w)).

(** Three candidates, two of them with the same score. *)
Definition cands0 : list candidate :=
  [Candidate "light.hall" "Hall" None 80;
   Candidate "light.kitchen_sink" "Kitchen Sink Light" (Some "Kitchen") 100;
   Candidate "switch.hall_fan" "Hall Fan" None 80].

(** * Properties *)

(** ** The stable sort *)

Lemma insert_desc_perm c l : insert_desc c l ≡ₚ c :: l.
Proof.
  induction l as [|d l IH]; simpl; [done|].
  destruct (match_score d <=? match_score c); [done|].
  rewrite IH. apply Permutation_swap.
Qed.

Lemma sort_desc_perm l : sort_desc l ≡ₚ l.
Proof.
  induction l as [|c l IH]; simpl; [done|].
  rewrite insert_desc_perm. by rewrite IH.
Qed.

Lemma insert_desc_sorted c l :
  StronglySorted score_ge l -> StronglySorted score_ge (insert_desc c l).
Proof.
  induction 1 as [|d l Hl IH Hd]; simpl.
  - repeat constructor.
  - destruct (Z.leb_spec (match_score d) (match_score c)) as [Hle|Hlt].
    + constructor; [by constructor|].
      constructor; [done|].
      eapply Forall_impl; [exact Hd|]. unfold score_ge. intros; lia.
    + constructor; [done|].
      rewrite insert_desc_perm. constructor; [|done].
      unfold score_ge. lia.
Qed.

Lemma sort_desc_sorted l : StronglySorted score_ge (sort_desc l).
Proof.
  induction l as [|c l IH]; simpl; [constructor|]. by apply insert_desc_sorted.
Qed.

(** Inserting leaves every class of equal scores in its order, the new
    candidate first in its own class. *)
Lemma insert_desc_filter s c l :
  filter (fun x => match_score x = s) (insert_desc c l)
  = filter (fun x => match_score x = s) (c :: l).
Proof.
  induction l as [|d l IH]; simpl; [done|].
  destruct (Z.leb_spec (match_score d) (match_score c)) as [Hle|Hlt]; [done|].
  rewrite (filter_cons _ d), IH, !filter_cons.
  repeat case_decide; try done; lia.
Qed.

Lemma sort_desc_stable s l :
  filter (fun x => match_score x = s) (sort_desc l)
  = filter (fun x => match_score x = s) l.
Proof.
  induction l as [|c l IH]; simpl; [done|].
  rewrite insert_desc_filter, !filter_cons, IH. done.
Qed.

Lemma string_app_assoc (a b c : string) : (a +:+ b) +:+ c = a +:+ (b +:+ c).
Proof.
  induction a as [|x a IH]; [done|].
  change (String x ((a +:+ b) +:+ c) = String x (a +:+ (b +:+ c))).
  by rewrite IH.
Qed.

Lemma prefix_app (p s : string) : String.prefix p (p +:+ s) = true.
Proof.
  induction p as [|a p IH]; simpl; [by destruct s|].
  destruct (ascii_dec a a); [exact IH|done].
Qed.

(** ** The conversion in the exact range *)

Lemma nearest_even_bounds n d :
  0 < d -> 2 * n - d <= 2 * d * nearest_even n d <= 2 * n + d.
Proof.
  intros Hd. unfold nearest_even.
  pose proof (Z.div_mod n d ltac:(lia)) as Hdm.
  pose proof (Z.mod_pos_bound n d Hd) as Hr.
  destruct (Z.ltb_spec (2 * (n mod d)) d); [nia|].
  destruct (Z.ltb_spec d (2 * (n mod d))); [nia|].
  destruct (Z.even (n / d)); nia.
Qed.

Lemma float_exponent_small a :
  0 < a < 2 ^ 53 -> float_exponent a 100 <= -6.
Proof.
  intros [Hpos Hlt]. unfold float_exponent.
  assert (Hlog : Z.log2 a < 53) by (apply Z.log2_lt_pow2; lia).
  change (Z.log2 100) with 6.
  destruct (scaled a 100 (Z.log2 a - 6)) as [num den].
  destruct (num <? den); lia.
Qed.

(** Below [2^53] the double nearest to [n / 100] lies on the same side of
    every integer as [n / 100] itself: cutting it gives the exact quotient
    cut toward zero. *)
Lemma int_true_div_exact n :
  Z.abs n < 2 ^ 53 -> int_true_div n 100 = Ok (Z.quot n 100).
Proof.
  intros Hn. unfold int_true_div.
  destruct (Z.eqb_spec (Z.abs n) 0) as [H0|Hne].
  { assert (n = 0) by lia. by subst. }
  pose proof (float_exponent_small (Z.abs n) ltac:(lia)) as He.
  set (e := float_exponent (Z.abs n) 100) in *.
  unfold scaled. destruct (Z.leb_spec 0 e) as [|_]; [lia|].
  f_equal. rewrite Z.quot_div by lia. change (Z.sgn 100) with 1.
  change (Z.abs 100) with 100. rewrite Z.mul_1_r. f_equal.
  set (a := Z.abs n) in *.
  assert (Hpow : 64 <= 2 ^ (- e)).
  { change 64 with (2 ^ 6). apply Z.pow_le_mono_r; lia. }
  set (pw := 2 ^ (- e)) in *.
  pose proof (nearest_even_bounds (a * pw) 100 ltac:(lia)) as Hm.
  set (m := nearest_even (a * pw) 100) in *.
  pose proof (Z.div_mod a 100 ltac:(lia)) as Hdm.
  pose proof (Z.mod_pos_bound a 100 ltac:(lia)) as Hr.
  symmetry. apply (Z.div_unique m pw (a / 100) (m - pw * (a / 100))); [|lia].
  left. nia.
Qed.

Lemma turn_on_data_exact brightness :
  exact_range true brightness -> turn_on_data brightness = Ok (turn_on_kwargs brightness).
Proof.
  destruct brightness as [b|]; [|done]. simpl. intros Hb.
  by rewrite (int_true_div_exact _ Hb).
Qed.

(** ** Single requests *)

Section Requests.

Variable P : platform.
Variable self : HomeAssistant.

(** A service call makes its one request; the status decides the flag,
    and a failure prints the platform's status and body. *)
Lemma call_service_run domain service id kwargs w :
  let req := service_request self domain service id kwargs in
  call_service P self domain service id kwargs w =
    match P (trace w) req with
    | Ok r =>
        if status_code r =? 200 then (Ok true, sent w req)
        else (Ok false,
              printed (sent w req)
                ("Error: " +:+ pretty (status_code r) +:+ " - " +:+ text r))
    | Raise e => (Raise e, sent w req)
    end.
Proof.
  intros req. unfold call_service, bind, send. fold req.
  destruct (P (trace w) req) as [r|e]; [|done].
  by destruct (status_code r =? 200).
Qed.

Lemma simple_get_state_run id w :
  let req := state_request self id in
  simple_get_state P self id w =
    match P (trace w) req with
    | Ok r =>
        if status_code r =? 200 then
          (rbind (json r) (fun data => getitem data "state"), sent w req)
        else (Ok JNull,
              printed (sent w req)
                ("Error: " +:+ pretty (status_code r) +:+ " - " +:+ text r))
    | Raise e => (Raise e, sent w req)
    end.
Proof.
  intros req. unfold simple_get_state, bind, send, lift. fold req.
  destruct (P (trace w) req) as [r|e]; [|done].
  by destruct (status_code r =? 200).
Qed.

Lemma get_entity_area_run id w :
  let req := area_request self id in
  get_entity_area P self id w =
    match P (trace w) req with
    | Ok r =>
        if status_code r =? 200 then
          (Ok (if String.eqb (strip (text r)) "" then None
               else Some (strip (text r))),
           sent w req)
        else (Ok None,
              printed
                (printed (sent w req)
                   ("Error rendering template: " +:+ pretty (status_code r)))
                ("Response content: " +:+ text r))
    | Raise e => (Raise e, sent w req)
    end.
Proof.
  intros req. unfold get_entity_area, bind, send. fold req.
  destruct (P (trace w) req) as [r|e]; [|done].
  by destruct (status_code r =? 200).
Qed.

Lemma write_request_is_service_call id state brightness :
  is_service_call self (write_request self id state brightness) = true.
Proof.
  destruct state; simpl; unfold service_url;
    rewrite <- string_app_assoc; apply prefix_app.
Qed.

Lemma state_request_not_service_call id :
  is_service_call self (state_request self id) = false.
Proof. done. Qed.

Variable str_other : jvalue -> string.

Lemma report_state_run id result w :
  let req := state_request self id in
  report_state P str_other self id result w =
    match P (trace w) req with
    | Ok r =>
        if status_code r =? 200 then
          match rbind (json r) (fun data => getitem data "state") with
          | Ok token =>
              (Ok (result +:+ nl +:+ "Current state of " +:+ id +:+ ": "
                   +:+ py_str str_other token),
               sent w req)
          | Raise e => (Raise e, sent w req)
          end
        else (Ok (result +:+ nl +:+ "Current state of " +:+ id +:+ ": None"),
              printed (sent w req)
                ("Error: " +:+ pretty (status_code r) +:+ " - " +:+ text r))
    | Raise e => (Raise e, sent w req)
    end.
Proof.
  intros req. unfold report_state, bind. rewrite simple_get_state_run. fold req.
  destruct (P (trace w) req) as [r|e]; [|done].
  destruct (status_code r =? 200); [|done].
  by destruct (rbind _ _).
Qed.

(** The body of [change_light_state]: the write, then, when it was
    accepted, the read-back. *)
Lemma change_light_state_body_run id state brightness w :
  let wr := write_request self id state brightness in
  exact_range state brightness ->
  change_light_state_body P str_other self id state brightness w =
    match P (trace w) wr with
    | Ok r =>
        if status_code r =? 200 then
          report_state P str_other self id
            (written_message id state brightness) (sent w wr)
        else (Ok ("Failed to turn " +:+ action_name state +:+ " " +:+ id),
              printed (sent w wr)
                ("Error: " +:+ pretty (status_code r) +:+ " - " +:+ text r))
    | Raise e => (Raise e, sent w wr)
    end.
Proof.
  intros wr Hexact. subst wr.
  destruct state; unfold change_light_state_body, bind,
    turn_on_light, turn_off_light, bind, lift;
    rewrite ?(turn_on_data_exact brightness Hexact), call_service_run; simpl;
    (match goal with |- context [P (trace w) ?q] =>
       destruct (P (trace w) q) as [r|e]; [|done] end);
    by destruct (status_code r =? 200).
Qed.

(** A conversion that raises ends the body before any request. *)
Lemma change_light_state_body_conversion id brightness e w :
  turn_on_data brightness = Raise e ->
  change_light_state_body P str_other self id true brightness w = (Raise e, w).
Proof.
  intros He. unfold change_light_state_body, bind, turn_on_light, bind, lift.
  by rewrite He.
Qed.

End Requests.

(** ** The device controller *)

Section Controller.

Variable P : platform.
Variable str_other : jvalue -> string.
Variable self : HomeAssistant.

Local Abbreviation change := (change_light_state P str_other self).

(** [change_light_state] spelled out: what it returns and the world it
    leaves, by the answers of the platform. *)
Lemma change_light_state_run id state brightness w :
  let wr := write_request self id state brightness in
  let rd := state_request self id in
  let w1 := sent w wr in
  let failure e := "Error changing light state: " +:+ exn_str e in
  exact_range state brightness ->
  change id state brightness w =
    match P (trace w) wr with
    | Raise e => (Ok (failure e), w1)
    | Ok r =>
        if status_code r =? 200 then
          match P (trace w1) rd with
          | Raise e => (Ok (failure e), sent w1 rd)
          | Ok r2 =>
              if status_code r2 =? 200 then
                match rbind (json r2) (fun data => getitem data "state") with
                | Ok token =>
                    (Ok (changed_message id state brightness
                           (py_str str_other token)),
                     sent w1 rd)
                | Raise e => (Ok (failure e), sent w1 rd)
                end
              else
                (Ok (changed_message id state brightness "None"),
                 printed (sent w1 rd)
                   ("Error: " +:+ pretty (status_code r2) +:+ " - " +:+ text r2))
          end
        else
          (Ok ("Failed to turn " +:+ action_name state +:+ " " +:+ id),
           printed w1
             ("Error: " +:+ pretty (status_code r) +:+ " - " +:+ text r))
    end.
Proof.
  intros wr rd w1 failure Hexact.
  unfold change_light_state, try_except.
  rewrite change_light_state_body_run by done. fold wr w1.
  destruct (P (trace w) wr) as [r|e]; [|done].
  destruct (status_code r =? 200); [|done].
  rewrite report_state_run. fold rd.
  destruct (P (trace w1) rd) as [r2|e]; [|done].
  destruct (status_code r2 =? 200); [|done].
  by destruct (rbind _ _).
Qed.

(** The requests of a call: the write command first, and no other write. *)
Lemma change_light_state_trace id state brightness w :
  let wr := write_request self id state brightness in
  exact_range state brightness ->
  exists rest,
    trace (snd (change id state brightness w)) = (trace w ++ wr :: rest)%list
    /\ filter (is_service_call self) (wr :: rest) = [wr].
Proof.
  intros wr Hexact. rewrite change_light_state_run by done. fold wr.
  assert (Hwr : is_service_call self wr) by
    (apply Is_true_true, write_request_is_service_call).
  assert (Hone : filter (is_service_call self) [wr] = [wr]) by
    (by rewrite filter_cons_True).
  destruct (P (trace w) wr) as [r|e]; [|by exists []].
  destruct (status_code r =? 200); [|by exists []].
  exists [state_request self id]. split.
  - assert (Htr : forall x, trace (sent (sent w wr) x) = (trace w ++ [wr; x])%list)
      by (intros x; simpl; by rewrite <- app_assoc).
    destruct (P _ (state_request self id)) as [r2|e]; [|apply Htr].
    destruct (status_code r2 =? 200); [|apply Htr].
    destruct (rbind _ _); apply Htr.
  - rewrite filter_cons_True by done.
    by rewrite filter_cons_False by (by intros []).
Qed.

(** C1, as the code has it: the brightness written is [percent * 255 / 100]
    cut toward zero by [int()], which for a percent that is not negative is
    the floor; it is the [brightness] item of the one write command.  The
    percent is taken in the range where the conversion is exact. *)
Theorem change_light_state_brightness_sent id percent w :
  let wr := write_request self id true (Some percent) in
  Z.abs (percent * 255) < 2 ^ 53 ->
  request_brightness wr = Some (JInt (Z.quot (percent * 255) 100))
  /\ (0 <= percent -> Z.quot (percent * 255) 100 = percent * 255 / 100)
  /\ exists rest,
       trace (snd (change id true (Some percent) w)) = (trace w ++ wr :: rest)%list
       /\ filter (is_service_call self) (wr :: rest) = [wr].
Proof.
  intros wr Hexact. split; [done|]. split.
  - intros Hpos. apply Z.quot_div_nonneg; lia.
  - by apply change_light_state_trace.
Qed.

(** C4: every call in the exact range (every call that turns a light off,
    gives no brightness, or gives one up to [2^53 / 255] in size, so every
    percent from 0 to 100) issues the one write command of its direction,
    first, and no other write; when the platform answers that write with a
    status other than 200 the call returns at once: the message names the
    action and the identifier, and nothing is requested after the write. *)
Theorem change_light_state_one_write id state brightness w :
  let out := change id state brightness w in
  let wr := write_request self id state brightness in
  exact_range state brightness ->
  (exists rest,
      trace (snd out) = (trace w ++ wr :: rest)%list
      /\ filter (is_service_call self) (wr :: rest) = [wr])
  /\ (forall r,
        P (trace w) wr = Ok r -> status_code r <> 200 ->
        fst out = Ok ("Failed to turn " +:+ action_name state +:+ " " +:+ id)
        /\ trace (snd out) = (trace w ++ [wr])%list).
Proof.
  intros out wr Hexact. split; [by apply change_light_state_trace|].
  intros r Hr Hst. subst out. rewrite change_light_state_run by done. fold wr.
  rewrite Hr.
  destruct (Z.eqb_spec (status_code r) 200) as [|_]; done.
Qed.

(** C5: the call always returns a message and never raises, whatever the
    arguments and the platform.  An exception raised anywhere in the body,
    by a request, by the decoding of an answer or by the conversion of the
    brightness, comes back as the message
    [Error changing light state: <str(e)>]; against a platform that answers
    every request with a status outside 200..299 a call in the exact range
    returns the failure message naming the identifier. *)
Theorem change_light_state_never_raises id state brightness w :
  let out := change id state brightness w in
  (exists message, fst out = Ok message)
  /\ (forall e w',
        change_light_state_body P str_other self id state brightness w = (Raise e, w') ->
        out = (Ok ("Error changing light state: " +:+ exn_str e), w'))
  /\ (exact_range state brightness ->
      (forall h req, exists r, P h req = Ok r /\ ~ (200 <= status_code r < 300)) ->
      fst out = Ok ("Failed to turn " +:+ action_name state +:+ " " +:+ id)).
Proof.
  intros out. subst out. split; [|split].
  - unfold change_light_state, try_except.
    destruct (change_light_state_body _ _ _ _ _ _ _) as [[message|e] w']; eauto.
  - intros e w' Hbody. unfold change_light_state, try_except. by rewrite Hbody.
  - intros Hexact Hdown. rewrite change_light_state_run by done.
    destruct (Hdown (trace w) (write_request self id state brightness))
      as (r & -> & Hst).
    destruct (Z.eqb_spec (status_code r) 200) as [Heq|_]; [lia|done].
Qed.

(** C6, as the code has it (for a call in the exact range, as every
    percent from 0 to 100 is): after an accepted write the call makes exactly
    one more request, the read of the state.  A 200 answer whose body has a
    [state] puts that token in the message; an answer with another status
    leaves the message in place with [None] for the state; a read that
    raises (the platform unreachable, a body that is not JSON or has no
    [state]) turns the result into the error message of the handler. *)
Theorem change_light_state_read_back id state brightness w r :
  let out := change id state brightness w in
  let wr := write_request self id state brightness in
  let rd := state_request self id in
  let answer := P (trace w ++ [wr])%list rd in
  let token_of r2 := rbind (json r2) (fun data => getitem data "state") in
  exact_range state brightness ->
  P (trace w) wr = Ok r -> status_code r = 200 ->
  trace (snd out) = (trace w ++ [wr; rd])%list
  /\ (forall r2 token,
        answer = Ok r2 -> status_code r2 = 200 -> token_of r2 = Ok token ->
        fst out = Ok (changed_message id state brightness (py_str str_other token)))
  /\ (forall r2,
        answer = Ok r2 -> status_code r2 <> 200 ->
        fst out = Ok (changed_message id state brightness "None"))
  /\ (forall e,
        answer = Raise e
        \/ (exists r2, answer = Ok r2 /\ status_code r2 = 200 /\ token_of r2 = Raise e) ->
        fst out = Ok ("Error changing light state: " +:+ exn_str e)).
Proof.
  intros out wr rd answer token_of Hexact Hr Hst. subst out.
  rewrite change_light_state_run by done. fold wr rd. rewrite Hr, Hst. simpl.
  fold answer.
  assert (Htr : trace (sent (sent w wr) rd) = (trace w ++ [wr; rd])%list)
    by (simpl; by rewrite <- app_assoc).
  split; [|split; [|split]].
  - destruct answer as [r2|e]; [|done].
    destruct (status_code r2 =? 200); [|done].
    by destruct (rbind _ _).
  - intros r2 token -> H200 Htok. rewrite H200. simpl.
    fold (token_of r2). by rewrite Htok.
  - intros r2 -> Hne.
    by destruct (Z.eqb_spec (status_code r2) 200).
  - intros e [->|(r2 & -> & H200 & Htok)]; [done|].
    rewrite H200. simpl. fold (token_of r2). by rewrite Htok.
Qed.

(** C10: turning a light off sends the [turn_off] command with the
    identifier alone in its body, and a brightness passed along changes
    neither the result nor the requests made. *)
Theorem change_light_state_off_ignores_brightness id b w :
  let wr := service_request self "light" "turn_off" id [] in
  change id false (Some b) w = change id false None w
  /\ request_brightness wr = None
  /\ exists rest,
       trace (snd (change id false (Some b) w)) = (trace w ++ wr :: rest)%list
       /\ filter (is_service_call self) (wr :: rest) = [wr].
Proof.
  intros wr. split; [done|]. split; [done|].
  by apply (change_light_state_trace id false (Some b) w).
Qed.

End Controller.

(** ** The entity resolver *)

Lemma string_length_app (a b : string) :
  String.length (a +:+ b) = (String.length a + String.length b)%nat.
Proof.
  induction a as [|x a IH]; [done|].
  change (S (String.length (a +:+ b)) = S (String.length a + String.length b)).
  by rewrite IH.
Qed.

Lemma string_app_inj_r (a b s : string) : a +:+ s = b +:+ s -> a = b.
Proof.
  revert b. induction a as [|x a IH]; intros [|y b] H.
  - done.
  - change (s = String y b +:+ s) in H.
    apply (f_equal String.length) in H.
    rewrite string_length_app in H. simpl in H. lia.
  - change (String x a +:+ s = s) in H.
    apply (f_equal String.length) in H.
    rewrite string_length_app in H. simpl in H. lia.
  - change (String x (a +:+ s) = String y (b +:+ s)) in H.
    injection H as -> H. f_equal. by apply IH.
Qed.

Lemma area_request_inj self i j : area_request self i = area_request self j -> i = j.
Proof.
  unfold area_request. intros H. injection H as H.
  apply String.app_inj in H. by apply string_app_inj_r in H.
Qed.

Lemma Forall2_elem_of_l {A B} (R : A -> B -> Prop) l k x :
  Forall2 R l k -> x ∈ l -> exists y, y ∈ k /\ R x y.
Proof.
  induction 1 as [|a b l k Hab _ IH]; intros Hx; [by apply elem_of_nil in Hx|].
  apply elem_of_cons in Hx as [->|Hx].
  - exists b. split; [left|done].
  - destruct (IH Hx) as (y & Hy & HR). exists y. split; [by right|done].
Qed.

Lemma Forall2_elem_of_r {A B} (R : A -> B -> Prop) l k y :
  Forall2 R l k -> y ∈ k -> exists x, x ∈ l /\ R x y.
Proof.
  induction 1 as [|a b l k Hab _ IH]; intros Hy; [by apply elem_of_nil in Hy|].
  apply elem_of_cons in Hy as [->|Hy].
  - exists a. split; [left|done].
  - destruct (IH Hy) as (x & Hx & HR). exists x. split; [by right|done].
Qed.

(** Candidates made from a list of entries, class by class: those of score
    [s] are made from the entries of score [s], in the same order. *)
Lemma made_from_filter score s pre entries :
  Forall2 (made_from score) pre entries ->
  map candidate_entry (filter (fun c => match_score c = s) pre)
  = filter (fun f => score f = s) entries.
Proof.
  induction 1 as [|c f pre entries [Hf Hs] _ IH]; [done|].
  rewrite !filter_cons, <- IH, <- Hs.
  case_decide; [|done]. simpl. by rewrite Hf.
Qed.

Section Resolver.

Variable P : platform.
Variable partial_ratio : string -> string -> Z.
Variable lower : string -> string.
Variable json_dumps : jvalue -> string.
Variable self : HomeAssistant.
Variable query : string.

Local Abbreviation score := (entry_score partial_ratio lower query).
Local Abbreviation search :=
  (search_smart_home_devices P partial_ratio lower json_dumps self query).
Local Abbreviation area_query := (fun f : string * string => area_request self (fst f)).

(** The test of line 195 is the test on the larger score. *)
Lemma threshold_max a b : (70 <? a) || (70 <? b) = bool_decide (70 < Z.max a b).
Proof.
  destruct (Z.ltb_spec 70 a), (Z.ltb_spec 70 b); simpl; symmetry;
    (apply bool_decide_eq_true_2 || apply bool_decide_eq_false_2); lia.
Qed.

Lemma search_step_run acc e f w :
  entity_fields e = Ok f ->
  search_step P partial_ratio lower self query acc e w =
    if bool_decide (70 < score f) then
      match get_entity_area P self (fst f) w with
      | (Ok area, w') =>
          (Ok (acc ++ [Candidate (fst f) (snd f) area (score f)])%list, w')
      | (Raise x, w') => (Raise x, w')
      end
    else (Ok acc, w).
Proof.
  intros Hf. unfold search_step, bind, lift. rewrite Hf.
  rewrite threshold_max. fold (score f).
  destruct (bool_decide (70 < score f)); [|done].
  by destruct (get_entity_area P self (fst f) w) as [[area|x] w'].
Qed.

(** The loop over a decoded snapshot, when every placement lookup returns
    (with a placement satisfying [Q]): it appends one candidate per accepted
    entry, in snapshot order, and makes one placement query for each. *)
Lemma search_loop_run (Q : option string -> Prop) :
  (forall i w, exists a w',
      get_entity_area P self i w = (Ok a, w') /\ Q a
      /\ trace w' = (trace w ++ [area_request self i])%list) ->
  forall snapshot entries, decoded snapshot entries ->
  forall acc w, exists new w',
    search_loop P partial_ratio lower self query snapshot acc w = (Ok (acc ++ new)%list, w')
    /\ trace w' = (trace w ++ map area_query (filter (fun f => 70 < score f) entries))%list
    /\ Forall2 (made_from score) new (filter (fun f => 70 < score f) entries)
    /\ Forall (fun c => Q (entity_area c)) new.
Proof.
  intros Harea snapshot entries Hdec.
  induction Hdec as [|e f snapshot entries Hf _ IH]; intros acc w.
  - exists [], w. simpl. unfold ret. rewrite !app_nil_r. by repeat split.
  - simpl. unfold bind. rewrite (search_step_run _ _ _ _ Hf).
    rewrite filter_cons. case_bool_decide as Hacc.
    + rewrite decide_True by done.
      destruct (Harea (fst f) w) as (a & w1 & -> & HQ & Htr).
      destruct (IH (acc ++ [Candidate (fst f) (snd f) a (score f)])%list w1)
        as (new & w' & -> & Htr' & Hmade & HQs).
      exists (Candidate (fst f) (snd f) a (score f) :: new), w'.
      rewrite <- app_assoc. split; [done|]. split; [|split].
      * rewrite Htr', Htr, <- app_assoc. done.
      * constructor; [|done]. split; [by destruct f|done].
      * by constructor.
    + rewrite decide_False by done. apply IH.
Qed.

Lemma get_entity_area_answered :
  (forall h i, exists r, P h (area_request self i) = Ok r) ->
  forall i w, exists a w',
    get_entity_area P self i w = (Ok a, w') /\ True
    /\ trace w' = (trace w ++ [area_request self i])%list.
Proof.
  intros Hans i w. rewrite get_entity_area_run.
  destruct (Hans (trace w) i) as (r & ->).
  destruct (status_code r =? 200); eauto.
Qed.

Lemma get_entity_area_absent i w r :
  P (trace w) (area_request self i) = Ok r ->
  status_code r <> 200 \/ strip (text r) = "" ->
  exists w',
    get_entity_area P self i w = (Ok None, w')
    /\ trace w' = (trace w ++ [area_request self i])%list.
Proof.
  intros Hr Hfail. rewrite get_entity_area_run, Hr.
  destruct (Z.eqb_spec (status_code r) 200) as [H200|_]; [|eauto].
  destruct Hfail as [Hne|Hempty]; [done|]. rewrite Hempty. eauto.
Qed.

(** The requests of the loop in any run, also one cut short by a lookup
    that raises: placement queries for accepted entries, in snapshot order. *)
Lemma search_loop_trace snapshot entries :
  decoded snapshot entries ->
  forall acc w, exists queries,
    trace (snd (search_loop P partial_ratio lower self query snapshot acc w))
    = (trace w ++ queries)%list
    /\ queries `prefix_of` map area_query (filter (fun f => 70 < score f) entries).
Proof.
  induction 1 as [|e f snapshot entries Hf _ IH]; intros acc w.
  - exists []. simpl. rewrite app_nil_r. split; [done|]. apply prefix_nil.
  - simpl. unfold bind. rewrite (search_step_run _ _ _ _ Hf), filter_cons.
    case_bool_decide as Hacc; [|rewrite decide_False by done; apply IH].
    rewrite decide_True by done. rewrite get_entity_area_run.
    destruct (P (trace w) (area_request self (fst f))) as [a|x].
    + destruct (status_code a =? 200);
        (match goal with |- context [search_loop _ _ _ _ _ _ ?acc' ?w1] =>
           destruct (IH acc' w1) as (qs & Htr & Hpre) end;
         exists (area_request self (fst f) :: qs); split;
         [rewrite Htr; simpl; by rewrite <- app_assoc
         |simpl; by apply prefix_cons]).
    + exists [area_request self (fst f)]. split; [done|].
      simpl. apply prefix_cons, prefix_nil.
Qed.

(** A search over a snapshot that was read and decoded, when every
    placement lookup returns. *)
Lemma search_run (Q : option string -> Prop) w r snapshot entries :
  P (trace w) (states_request self) = Ok r ->
  status_code r = 200 ->
  json r = Ok (JArr snapshot) ->
  decoded snapshot entries ->
  (forall i w, exists a w',
      get_entity_area P self i w = (Ok a, w') /\ Q a
      /\ trace w' = (trace w ++ [area_request self i])%list) ->
  exists pre w',
    search w = (Ok (json_dumps (JArr (map candidate_json (sort_desc pre)))), w')
    /\ trace w'
       = (trace w ++ states_request self
            :: map area_query (filter (fun f => 70 < score f) entries))%list
    /\ Forall2 (made_from score) pre (filter (fun f => 70 < score f) entries)
    /\ Forall (fun c => Q (entity_area c)) pre.
Proof.
  intros Hr H200 Hjson Hdec Harea.
  destruct (search_loop_run Q Harea snapshot entries Hdec [] (sent w (states_request self)))
    as (pre & w' & Hloop & Htr & Hmade & HQ).
  exists pre, w'.
  unfold search_smart_home_devices, bind, send. rewrite Hr, H200. simpl.
  unfold search_matches, bind, lift. rewrite Hjson. simpl.
  unfold sent in Hloop. rewrite Hloop. simpl. unfold ret.
  split; [done|]. split; [|done].
  rewrite Htr. simpl. by rewrite <- app_assoc.
Qed.

(** C2: over a snapshot that was read and decoded, with the placement
    endpoint answering, the search returns, and an entry of the snapshot has
    a candidate in the result exactly when the larger of its two scores is
    above 70: an entry that scores at most 70 on both fields has none. *)
Theorem search_accepts_iff w r snapshot entries :
  P (trace w) (states_request self) = Ok r ->
  status_code r = 200 ->
  json r = Ok (JArr snapshot) ->
  decoded snapshot entries ->
  (forall h i, exists a, P h (area_request self i) = Ok a) ->
  exists cands w',
    search w = (Ok (json_dumps (JArr (map candidate_json cands))), w')
    /\ forall f, f ∈ entries ->
         ((exists c, c ∈ cands /\ entity_id c = fst f /\ entity_name c = snd f)
          <-> 70 < Z.max (partial_ratio (lower query) (lower (fst f)))
                         (partial_ratio (lower query) (lower (snd f)))).
Proof.
  intros Hr H200 Hjson Hdec Hans.
  destruct (search_run (fun _ => True) w r snapshot entries Hr H200 Hjson Hdec
              (get_entity_area_answered Hans))
    as (pre & w' & Hrun & _ & Hmade & _).
  exists (sort_desc pre), w'. split; [done|].
  intros f Hf. fold (id_score partial_ratio lower query (fst f)).
  fold (name_score partial_ratio lower query (snd f)). fold (score f).
  split.
  - intros (c & Hc & Hid & Hname).
    rewrite sort_desc_perm in Hc.
    destruct (Forall2_elem_of_l _ _ _ _ Hmade Hc) as (g & Hg & Hcg & _).
    apply list_elem_of_filter in Hg as [Hacc _].
    replace f with g; [done|].
    rewrite <- Hcg. unfold candidate_entry. rewrite Hid, Hname. by destruct f.
  - intros Hacc.
    assert (Hin : f ∈ filter (fun f => 70 < score f) entries)
      by (by apply list_elem_of_filter).
    destruct (Forall2_elem_of_r _ _ _ _ Hmade Hin) as (c & Hc & Hcf & _).
    exists c. rewrite sort_desc_perm. split; [done|].
    unfold candidate_entry in Hcf. by rewrite <- Hcf.
Qed.

(** C3: the candidates come back with no score followed by a higher one,
    and for every score the candidates of that score stand in the order
    their entries have in the snapshot. *)
Theorem search_sorted_stable w r snapshot entries :
  P (trace w) (states_request self) = Ok r ->
  status_code r = 200 ->
  json r = Ok (JArr snapshot) ->
  decoded snapshot entries ->
  (forall h i, exists a, P h (area_request self i) = Ok a) ->
  exists cands w',
    search w = (Ok (json_dumps (JArr (map candidate_json cands))), w')
    /\ StronglySorted (fun c d => match_score d <= match_score c) cands
    /\ forall s,
         map candidate_entry (filter (fun c => match_score c = s) cands)
         = filter (fun f => score f = s) (filter (fun f => 70 < score f) entries).
Proof.
  intros Hr H200 Hjson Hdec Hans.
  destruct (search_run (fun _ => True) w r snapshot entries Hr H200 Hjson Hdec
              (get_entity_area_answered Hans))
    as (pre & w' & Hrun & _ & Hmade & _).
  exists (sort_desc pre), w'. split; [done|]. split.
  - apply sort_desc_sorted.
  - intros s. rewrite sort_desc_stable. by apply made_from_filter.
Qed.

(** C7: when the platform answers the snapshot read with a status other
    than 200, the search raises nothing and makes no further request: it
    returns the JSON object whose [error] item holds the status and the
    body. *)
Theorem search_snapshot_unavailable w r :
  P (trace w) (states_request self) = Ok r ->
  status_code r <> 200 ->
  search w
  = (Ok (json_dumps
           (JObj [("error",
                   JStr ("Error: " +:+ pretty (status_code r) +:+ " - " +:+ text r))])),
     sent w (states_request self)).
Proof.
  intros Hr Hne. unfold search_smart_home_devices, bind, send. rewrite Hr.
  by destruct (Z.eqb_spec (status_code r) 200).
Qed.

(** C8: the requests of a search over a decoded snapshot are the snapshot
    read followed by placement queries for accepted entries only, one each
    and in snapshot order, as far as the run gets; no query names an
    identifier whose entries were all rejected.  When every lookup is
    answered the search returns, each accepted entry has had its query, and
    there are as many placement queries as candidates returned. *)
Theorem search_placement_queries w r snapshot entries :
  P (trace w) (states_request self) = Ok r ->
  status_code r = 200 ->
  json r = Ok (JArr snapshot) ->
  decoded snapshot entries ->
  exists queries,
    trace (snd (search w)) = (trace w ++ states_request self :: queries)%list
    /\ queries `prefix_of` map area_query (filter (fun f => 70 < score f) entries)
    /\ (forall i,
          (forall f, f ∈ entries -> fst f = i -> score f <= 70) ->
          area_request self i ∉ states_request self :: queries)
    /\ ((forall h i, exists a, P h (area_request self i) = Ok a) ->
        exists cands,
          fst (search w) = Ok (json_dumps (JArr (map candidate_json cands)))
          /\ queries = map area_query (filter (fun f => 70 < score f) entries)
          /\ length queries = length cands).
Proof.
  intros Hr H200 Hjson Hdec.
  destruct (search_loop_trace snapshot entries Hdec [] (sent w (states_request self)))
    as (queries & Htr & Hpre).
  exists queries.
  assert (Hsearch : trace (snd (search w))
                    = (trace w ++ states_request self :: queries)%list).
  { unfold search_smart_home_devices, bind, send. rewrite Hr, H200. simpl.
    unfold search_matches, bind, lift. rewrite Hjson. simpl.
    unfold sent in Htr. simpl in Htr. rewrite <- app_assoc in Htr.
    destruct (search_loop _ _ _ _ _ _ _ _) as [[pre|x] w']; exact Htr. }
  split; [done|]. split; [done|]. split.
  - intros i Hrej Hin. apply elem_of_cons in Hin as [Heq|Hin]; [done|].
    destruct Hpre as [later Hall].
    assert (Hq : area_request self i
                 ∈ map area_query (filter (fun f => 70 < score f) entries))
      by (rewrite Hall; apply elem_of_app; by left).
    apply list_elem_of_fmap in Hq as (f & Heq & Hf).
    apply list_elem_of_filter in Hf as [Hacc Hf].
    apply area_request_inj in Heq.
    specialize (Hrej f Hf (eq_sym Heq)). lia.
  - intros Hans.
    destruct (search_run (fun _ => True) w r snapshot entries Hr H200 Hjson Hdec
                (get_entity_area_answered Hans))
      as (pre & w' & Hrun & Htr' & Hmade & _).
    exists (sort_desc pre). rewrite Hrun in Hsearch |- *. simpl in Hsearch.
    rewrite Htr' in Hsearch. apply app_inv_head in Hsearch.
    injection Hsearch as <-.
    split; [done|]. split; [done|].
    rewrite length_map, (Permutation_length (sort_desc_perm pre)).
    symmetry. by eapply Forall2_length.
Qed.

(** C9: a placement lookup answered with a status other than 200, or with a
    text that is empty once stripped, gives no placement and raises nothing;
    a search whose placement lookups are all answered that way returns, with
    a candidate for each accepted entry and no placement on any. *)
Theorem placement_best_effort :
  (forall i w a,
      P (trace w) (area_request self i) = Ok a ->
      status_code a <> 200 \/ strip (text a) = "" ->
      fst (get_entity_area P self i w) = Ok None)
  /\ (forall w r snapshot entries,
        P (trace w) (states_request self) = Ok r ->
        status_code r = 200 ->
        json r = Ok (JArr snapshot) ->
        decoded snapshot entries ->
        (forall h i, exists a,
            P h (area_request self i) = Ok a
            /\ (status_code a <> 200 \/ strip (text a) = "")) ->
        exists cands w',
          search w = (Ok (json_dumps (JArr (map candidate_json cands))), w')
          /\ Forall (fun c => entity_area c = None) cands
          /\ map candidate_entry cands ≡ₚ filter (fun f => 70 < score f) entries).
Proof.
  split.
  - intros i w a Ha Hfail.
    destruct (get_entity_area_absent i w a Ha Hfail) as (w' & -> & _). done.
  - intros w r snapshot entries Hr H200 Hjson Hdec Hfail.
    assert (Harea : forall i w, exists a w',
               get_entity_area P self i w = (Ok a, w') /\ a = None
               /\ trace w' = (trace w ++ [area_request self i])%list).
    { intros i w1. destruct (Hfail (trace w1) i) as (a & Ha & Hf).
      destruct (get_entity_area_absent i w1 a Ha Hf) as (w' & Hrun & Htr).
      by exists None, w'. }
    destruct (search_run (fun a => a = None) w r snapshot entries Hr H200 Hjson Hdec Harea)
      as (pre & w' & Hrun & _ & Hmade & Hnone).
    exists (sort_desc pre), w'. split; [done|]. split.
    + by rewrite sort_desc_perm.
    + rewrite sort_desc_perm. clear -Hmade.
      induction Hmade as [|c f pre fs [Hcf _] _ IH]; [done|].
      simpl. by rewrite Hcf, IH.
Qed.

End Resolver.

(** ** The claims on the example installations *)

(** C1, as the specification words it, fails: for 50 percent the write
    carries 127, where [round(50 * 255 / 100)] is 128. *)
Lemma brightness_50_sends_127 :
  let wr := write_request ha0 "light.kitchen_sink" true (Some 50) in
  let out := change_light_state platform_accepting toy_str ha0
               "light.kitchen_sink" true (Some 50) w0 in
  head (trace (snd out)) = Some wr
  /\ request_brightness wr = Some (JInt 127)
  /\ spec_brightness_value 50 = 128
  /\ request_brightness wr <> Some (JInt (spec_brightness_value 50)).
Proof. repeat split. discriminate. Qed.

Lemma change_light_state_brightness_sent_witness :
  Z.abs (50 * 255) < 2 ^ 53
  /\ request_brightness (write_request ha0 "light.kitchen_sink" true (Some 50))
     = Some (JInt 127).
Proof.
  assert (H : Z.abs (50 * 255) < 2 ^ 53) by reflexivity.
  split; [exact H|].
  exact (proj1 (change_light_state_brightness_sent platform_accepting toy_str ha0
                  "light.kitchen_sink" 50 w0 H)).
Defined.

Lemma change_light_state_one_write_witness :
  let out := change_light_state platform_unavailable toy_str ha0
               "light.kitchen_sink" true (Some 100) w0 in
  fst out = Ok "Failed to turn on light.kitchen_sink"
  /\ trace (snd out) = [write_request ha0 "light.kitchen_sink" true (Some 100)].
Proof.
  apply (proj2 (change_light_state_one_write platform_unavailable toy_str ha0
                  "light.kitchen_sink" true (Some 100) w0 eq_refl)
           (Response 503 "Service Unavailable"
              (Raise (Exception "JSONDecodeError"
                        "Expecting value: line 1 column 1 (char 0)")))).
  - reflexivity.
  - simpl. lia.
Defined.

Lemma change_light_state_never_raises_witness :
  fst (change_light_state platform_dropping toy_str ha0
         "light.kitchen_sink" false None w0)
  = Ok "Error changing light state: Connection aborted."
  /\ change_light_state platform_accepting toy_str ha0
       "light.kitchen_sink" true (Some (10 ^ 400)) w0
     = (Ok "Error changing light state: integer division result too large for a float",
        w0)
  /\ fst (change_light_state platform_unavailable toy_str ha0
            "light.kitchen_sink" true (Some 100) w0)
     = Ok "Failed to turn on light.kitchen_sink".
Proof.
  split; [|split].
  - pose proof (proj1 (proj2 (change_light_state_never_raises platform_dropping
                   toy_str ha0 "light.kitchen_sink" false None w0))
                  (Exception "ConnectionError" "Connection aborted.") _ eq_refl) as H.
    exact (f_equal fst H).
  - apply (proj1 (proj2 (change_light_state_never_raises platform_accepting
                   toy_str ha0 "light.kitchen_sink" true (Some (10 ^ 400)) w0))
             (Exception "OverflowError"
                "integer division result too large for a float") w0).
    vm_compute. reflexivity.
  - apply (proj2 (proj2 (change_light_state_never_raises platform_unavailable
                   toy_str ha0 "light.kitchen_sink" true (Some 100) w0))).
    + reflexivity.
    + intros h req. eexists. split; [reflexivity|]. simpl. lia.
Defined.

(** C6, as the specification words it, fails: the write is accepted, the
    platform cannot be reached for the read-back, and the call returns the
    error message of its handler, not the message of the change. *)
Lemma read_back_unreachable_is_an_error :
  let out := change_light_state platform_dropping toy_str ha0
               "light.kitchen_sink" true (Some 100) w0 in
  call_service platform_dropping ha0 "light" "turn_on" "light.kitchen_sink"
    (turn_on_kwargs (Some 100)) w0
  = (Ok true, sent w0 (write_request ha0 "light.kitchen_sink" true (Some 100)))
  /\ fst out = Ok "Error changing light state: Connection aborted."
  /\ forall token,
       fst out <> Ok (changed_message "light.kitchen_sink" true (Some 100) token).
Proof.
  split; [reflexivity|]. split; [reflexivity|].
  intros token H. vm_compute in H. discriminate H.
Qed.

Lemma change_light_state_read_back_witness :
  fst (change_light_state platform_accepting toy_str ha0
         "light.kitchen_sink" true (Some 100) w0)
  = Ok (changed_message "light.kitchen_sink" true (Some 100) "on")
  /\ fst (change_light_state platform_forgetting toy_str ha0
            "light.kitchen_sink" false None w0)
     = Ok (changed_message "light.kitchen_sink" false None "None")
  /\ trace (snd (change_light_state platform_forgetting toy_str ha0
                   "light.kitchen_sink" false None w0))
     = [write_request ha0 "light.kitchen_sink" false None;
        state_request ha0 "light.kitchen_sink"].
Proof.
  split; [|split].
  - apply (proj1 (proj2 (change_light_state_read_back platform_accepting toy_str ha0
                     "light.kitchen_sink" true (Some 100) w0
                     (Response 200 "[]" (Ok (JArr []))) eq_refl eq_refl eq_refl))
             (Response 200 "" (Ok (state_body "on"))) (JStr "on"));
      reflexivity.
  - apply (proj1 (proj2 (proj2 (change_light_state_read_back platform_forgetting
                     toy_str ha0 "light.kitchen_sink" false None w0
                     (Response 200 "[]" (Ok (JArr []))) I eq_refl eq_refl)))
             (Response 404 "Entity not found."
                (Raise (Exception "JSONDecodeError"
                          "Expecting value: line 1 column 1 (char 0)")))).
    + reflexivity.
    + simpl. lia.
  - apply (proj1 (change_light_state_read_back platform_forgetting
                    toy_str ha0 "light.kitchen_sink" false None w0
                    (Response 200 "[]" (Ok (JArr []))) I eq_refl eq_refl)).
Defined.

Lemma decoded_snapshot0 : decoded snapshot0 entries0.
Proof. repeat constructor. Defined.

Lemma platform_home_answers h i :
  exists a, platform_home h (area_request ha0 i) = Ok a.
Proof. eexists. reflexivity. Defined.

Lemma platform_no_areas_fails h i :
  exists a,
    platform_no_areas h (area_request ha0 i) = Ok a
    /\ (status_code a <> 200 \/ strip (text a) = "").
Proof.
  unfold platform_no_areas, area_request.
  destruct (String.prefix _ _); eexists; (split; [reflexivity|]).
  - right. reflexivity.
  - left. simpl. lia.
Defined.

Lemma search_accepts_iff_witness :
  exists cands w',
    search_smart_home_devices platform_home toy_ratio toy_lower toy_dumps ha0
      "Kitchen" w0
    = (Ok (toy_dumps (JArr (map candidate_json cands))), w')
    /\ forall f, f ∈ entries0 ->
         ((exists c, c ∈ cands /\ entity_id c = fst f /\ entity_name c = snd f)
          <-> 70 < Z.max (toy_ratio (toy_lower "Kitchen") (toy_lower (fst f)))
                         (toy_ratio (toy_lower "Kitchen") (toy_lower (snd f)))).
Proof.
  exact (search_accepts_iff platform_home toy_ratio toy_lower toy_dumps ha0
           "Kitchen" w0 (Response 200 "" (Ok (JArr snapshot0))) snapshot0 entries0
           eq_refl eq_refl eq_refl decoded_snapshot0 platform_home_answers).
Defined.

Lemma search_sorted_stable_witness :
  exists cands w',
    search_smart_home_devices platform_home toy_ratio toy_lower toy_dumps ha0
      "Kitchen" w0
    = (Ok (toy_dumps (JArr (map candidate_json cands))), w')
    /\ StronglySorted (fun c d => match_score d <= match_score c) cands
    /\ forall s,
         map candidate_entry (filter (fun c => match_score c = s) cands)
         = filter (fun f => entry_score toy_ratio toy_lower "Kitchen" f = s)
             (filter (fun f => 70 < entry_score toy_ratio toy_lower "Kitchen" f)
                entries0).
Proof.
  exact (search_sorted_stable platform_home toy_ratio toy_lower toy_dumps ha0
           "Kitchen" w0 (Response 200 "" (Ok (JArr snapshot0))) snapshot0 entries0
           eq_refl eq_refl eq_refl decoded_snapshot0 platform_home_answers).
Defined.

Lemma search_snapshot_unavailable_witness :
  search_smart_home_devices platform_unavailable toy_ratio toy_lower toy_dumps ha0
    "Kitchen" w0
  = (Ok (toy_dumps (JObj [("error", JStr "Error: 503 - Service Unavailable")])),
     sent w0 (states_request ha0)).
Proof.
  apply (search_snapshot_unavailable platform_unavailable toy_ratio toy_lower
           toy_dumps ha0 "Kitchen" w0
           (Response 503 "Service Unavailable"
              (Raise (Exception "JSONDecodeError"
                        "Expecting value: line 1 column 1 (char 0)")))).
  - reflexivity.
  - simpl. lia.
Defined.

Lemma search_placement_queries_witness :
  exists queries,
    trace (snd (search_smart_home_devices platform_home toy_ratio toy_lower
                  toy_dumps ha0 "Kitchen" w0))
    = (trace w0 ++ states_request ha0 :: queries)%list
    /\ queries
       = [area_request ha0 "light.kitchen_sink";
          area_request ha0 "switch.kitchen_fan"]
    /\ exists cands,
         fst (search_smart_home_devices platform_home toy_ratio toy_lower
                toy_dumps ha0 "Kitchen" w0)
         = Ok (toy_dumps (JArr (map candidate_json cands)))
         /\ length queries = length cands.
Proof.
  destruct (search_placement_queries platform_home toy_ratio toy_lower toy_dumps
              ha0 "Kitchen" w0 (Response 200 "" (Ok (JArr snapshot0)))
              snapshot0 entries0 eq_refl eq_refl eq_refl decoded_snapshot0)
    as (queries & Htr & _ & _ & Hans).
  destruct (Hans platform_home_answers) as (cands & Hout & Hq & Hlen).
  exists queries. split; [exact Htr|]. split; [exact Hq|].
  exists cands. split; [exact Hout|exact Hlen].
Defined.

Lemma placement_best_effort_witness :
  fst (get_entity_area platform_no_areas ha0 "light.kitchen_sink" w0) = Ok None
  /\ exists cands w',
       search_smart_home_devices platform_no_areas toy_ratio toy_lower toy_dumps
         ha0 "Kitchen" w0
       = (Ok (toy_dumps (JArr (map candidate_json cands))), w')
       /\ Forall (fun c => entity_area c = None) cands
       /\ map candidate_entry cands
          ≡ₚ filter (fun f => 70 < entry_score toy_ratio toy_lower "Kitchen" f)
               entries0.
Proof.
  split.
  - apply (proj1 (placement_best_effort platform_no_areas toy_ratio toy_lower
                    toy_dumps ha0 "Kitchen")
             "light.kitchen_sink" w0 (Response 200 nl (Ok JNull))).
    + reflexivity.
    + right. reflexivity.
  - exact (proj2 (placement_best_effort platform_no_areas toy_ratio toy_lower
                    toy_dumps ha0 "Kitchen")
             w0 (Response 200 "" (Ok (JArr snapshot0))) snapshot0 entries0
             eq_refl eq_refl eq_refl decoded_snapshot0 platform_no_areas_fails).
Defined.

(** * Further properties *)

(** ** The brightness conversion *)

Section Brightness.

Variable self : HomeAssistant.

(** X1: a percent from 0 to 100 is written as a brightness from 0 to 255,
    the ends going to the ends; that brightness is the one item of the dict
    [turn_on_light] builds. *)
Theorem brightness_in_range id percent :
  0 <= percent <= 100 ->
  exists v,
    request_brightness (write_request self id true (Some percent)) = Some (JInt v)
    /\ 0 <= v <= 255
    /\ (percent = 0 -> v = 0)
    /\ (percent = 100 -> v = 255)
    /\ turn_on_data (Some percent) = Ok [("brightness", JInt v)].
Proof.
  intros Hp. exists (brightness_value percent). split; [done|].
  assert (Hexact : Z.abs (percent * 255) < 2 ^ 53).
  { assert (Hbig : 25500 < 2 ^ 53) by done. lia. }
  unfold brightness_value. rewrite Z.quot_div_nonneg by lia.
  split; [split|split; [|split]].
  - apply Z.div_pos; lia.
  - apply Z.div_le_upper_bound; lia.
  - by intros ->.
  - by intros ->.
  - rewrite (turn_on_data_exact (Some percent) Hexact). simpl.
    unfold brightness_value. by rewrite Z.quot_div_nonneg by lia.
Qed.

Lemma brightness_value_lt p q :
  p < q -> brightness_value p < brightness_value q.
Proof.
  unfold brightness_value. intros Hpq.
  pose proof (Z.quot_rem' (p * 255) 100) as Hp.
  pose proof (Z.quot_rem' (q * 255) 100) as Hq.
  assert (Hrp : Z.abs (Z.rem (p * 255) 100) < 100)
    by (pose proof (Z.rem_bound_abs (p * 255) 100); lia).
  assert (Hrq : Z.abs (Z.rem (q * 255) 100) < 100)
    by (pose proof (Z.rem_bound_abs (q * 255) 100); lia).
  assert (Hsp : 0 <= Z.rem (p * 255) 100 * (p * 255))
    by (apply Z.rem_sign_mul; lia).
  assert (Hsq : 0 <= Z.rem (q * 255) 100 * (q * 255))
    by (apply Z.rem_sign_mul; lia).
  nia.
Qed.

Lemma turn_on_data_value percent :
  Z.abs (percent * 255) < 2 ^ 53 ->
  turn_on_data (Some percent) = Ok [("brightness", JInt (brightness_value percent))].
Proof. intros Hexact. apply (turn_on_data_exact (Some percent) Hexact). Qed.

(** X2: in the exact range the conversion is strictly increasing: a larger
    percent is written as a larger brightness, so two different percents
    are never written as the same one. *)
Theorem brightness_strictly_increasing p q :
  Z.abs (p * 255) < 2 ^ 53 ->
  Z.abs (q * 255) < 2 ^ 53 ->
  p < q ->
  exists u v,
    turn_on_data (Some p) = Ok [("brightness", JInt u)]
    /\ turn_on_data (Some q) = Ok [("brightness", JInt v)]
    /\ u < v.
Proof.
  intros Hp Hq Hpq. exists (brightness_value p), (brightness_value q).
  split; [by apply turn_on_data_value|]. split; [by apply turn_on_data_value|].
  by apply brightness_value_lt.
Qed.

(** X3: nothing is clamped.  In the exact range a percent above 100 is
    written as a brightness above 255, a negative percent as a negative
    brightness. *)
Theorem brightness_not_clamped percent :
  Z.abs (percent * 255) < 2 ^ 53 ->
  exists v,
    turn_on_data (Some percent) = Ok [("brightness", JInt v)]
    /\ (percent < 0 -> v < 0)
    /\ (100 < percent -> 255 < v).
Proof.
  intros Hexact. exists (brightness_value percent).
  split; [by apply turn_on_data_value|]. split.
  - intros Hp. apply (brightness_value_lt percent 0 Hp).
  - intros Hp. apply (brightness_value_lt 100 percent Hp).
Qed.

(** X4: against [round(percent * 255 / 100)], for a percent that is not
    negative: the quotient cut toward zero is never above the rounded value
    and at most one below it; in the exact range that quotient is the
    brightness written. *)
Theorem brightness_below_rounded percent :
  0 <= percent ->
  spec_brightness_value percent - 1 <= brightness_value percent
  /\ brightness_value percent <= spec_brightness_value percent
  /\ (Z.abs (percent * 255) < 2 ^ 53 ->
      turn_on_data (Some percent)
      = Ok [("brightness", JInt (brightness_value percent))]).
Proof.
  intros Hp. split; [|split; [|apply turn_on_data_value]];
    unfold brightness_value, spec_brightness_value, py_round_div;
    rewrite Z.quot_div_nonneg by lia;
    (destruct (_ <? _); [lia|]); (destruct (_ <? _); [lia|]);
    destruct (Z.even _); lia.
Qed.

Lemma nearest_even_ge n d j :
  0 < d -> d * j <= n -> j <= nearest_even n d.
Proof.
  intros Hd Hj. pose proof (nearest_even_bounds n d Hd) as [Hlo _].
  assert (0 <= d * (2 * nearest_even n d - 2 * j + 1)) by nia.
  assert (0 <= 2 * nearest_even n d - 2 * j + 1)
    by (apply (Z.mul_nonneg_cancel_l d); lia).
  lia.
Qed.

(** The exponent chosen leaves a mantissa of at least [2^52]. *)
Lemma float_exponent_large a :
  128 <= a ->
  let e := float_exponent a 100 in
  Z.log2 a - 59 <= e /\ 100 * 2 ^ (e + 52) <= a.
Proof.
  intros Ha e. subst e. unfold float_exponent. change (Z.log2 100) with 6.
  assert (Hlog : 7 <= Z.log2 a)
    by (change 7 with (Z.log2 128); apply Z.log2_le_mono; lia).
  destruct (Z.log2_spec a ltac:(lia)) as [Hlo _].
  unfold scaled. destruct (Z.leb_spec 0 (Z.log2 a - 6)) as [_|]; [|lia].
  assert (Hsplit : 2 ^ Z.log2 a = 128 * 2 ^ (Z.log2 a - 7)).
  { replace (Z.log2 a) with (7 + (Z.log2 a - 7)) at 1 by lia.
    rewrite Z.pow_add_r by lia. by change (2 ^ 7) with 128. }
  destruct (Z.ltb_spec a (100 * 2 ^ (Z.log2 a - 6))) as [Hlt|Hge].
  - split; [lia|].
    replace (Z.log2 a - 6 - 1 - 52 + 52) with (Z.log2 a - 7) by lia. lia.
  - split; [lia|].
    by replace (Z.log2 a - 6 - 52 + 52) with (Z.log2 a - 6) by lia.
Qed.

Lemma int_true_div_overflow n :
  100 * 2 ^ 1024 <= Z.abs n ->
  int_true_div n 100
  = Raise (Exception "OverflowError" "integer division result too large for a float").
Proof.
  intros Hn. unfold int_true_div. set (a := Z.abs n) in *.
  assert (Hbig : 0 < 2 ^ 1024) by (apply Z.pow_pos_nonneg; lia).
  destruct (Z.eqb_spec a 0) as [|_]; [lia|].
  assert (Hlog : 1030 <= Z.log2 a).
  { rewrite <- (Z.log2_pow2 1030) by lia. apply Z.log2_le_mono.
    replace 1030 with (6 + 1024) by lia. rewrite Z.pow_add_r by lia.
    change (2 ^ 6) with 64. lia. }
  destruct (float_exponent_large a ltac:(lia)) as [He Hm].
  set (e := float_exponent a 100) in *.
  unfold scaled. destruct (Z.leb_spec 0 e) as [_|]; [|lia].
  assert (Hpe : 0 < 2 ^ e) by (apply Z.pow_pos_nonneg; lia).
  assert (Hover : 2 ^ 1024 <= nearest_even a (100 * 2 ^ e) * 2 ^ e).
  { destruct (Z_le_gt_dec e 1024) as [Hle|Hgt].
    - assert (Hj : 2 ^ (1024 - e) <= nearest_even a (100 * 2 ^ e)).
      { apply nearest_even_ge; [lia|].
        rewrite <- Z.mul_assoc, <- Z.pow_add_r by lia.
        by replace (e + (1024 - e)) with 1024 by lia. }
      replace 1024 with ((1024 - e) + e) at 1 by lia.
      rewrite Z.pow_add_r by lia. nia.
    - assert (Hj : 2 ^ 52 <= nearest_even a (100 * 2 ^ e)).
      { apply nearest_even_ge; [lia|].
        rewrite <- Z.mul_assoc, <- Z.pow_add_r by lia. exact Hm. }
      assert (2 ^ 1024 <= 2 ^ e) by (apply Z.pow_le_mono_r; lia).
      assert (0 < 2 ^ 52) by done. nia. }
  by destruct (Z.leb_spec (2 ^ 1024) (nearest_even a (100 * 2 ^ e) * 2 ^ e));
    [|lia].
Qed.

(** X19: a brightness whose quotient [brightness * 255 / 100] is [2^1024]
    or more in size is beyond the doubles: the conversion raises
    [OverflowError], and [change_light_state] returns the message of its
    handler without any request and without printing. *)
Theorem brightness_too_large (P : platform) (str_other : jvalue -> string)
    id percent w :
  100 * 2 ^ 1024 <= Z.abs (percent * 255) ->
  turn_on_data (Some percent)
  = Raise (Exception "OverflowError" "integer division result too large for a float")
  /\ change_light_state P str_other self id true (Some percent) w
     = (Ok "Error changing light state: integer division result too large for a float",
        w).
Proof.
  intros Hbig.
  assert (Hdata : turn_on_data (Some percent)
                  = Raise (Exception "OverflowError"
                             "integer division result too large for a float"))
    by (simpl; by rewrite (int_true_div_overflow _ Hbig)).
  split; [done|].
  unfold change_light_state, try_except.
  by rewrite (change_light_state_body_conversion P self str_other id
                (Some percent) _ w Hdata).
Qed.

End Brightness.

(** ** Placement lookup *)

Lemma lstrip_clean s :
  match lstrip s with
  | EmptyString => True
  | String c _ => is_space c = false
  end.
Proof.
  induction s as [|c s IH]; simpl; [done|].
  destruct (is_space c) eqn:Hc; [exact IH|exact Hc].
Qed.

Lemma rstrip_idempotent s : rstrip (rstrip s) = rstrip s.
Proof.
  induction s as [|c s IH]; [done|]. simpl.
  destruct (rstrip s) as [|d t] eqn:Hs.
  - destruct (is_space c) eqn:Hc; [done|]. simpl. by rewrite Hc.
  - change (rstrip (String c (String d t))) with
      (match rstrip (String d t) with
       | EmptyString => if is_space c then EmptyString else String c EmptyString
       | String x y => String c (String x y)
       end).
    by rewrite IH.
Qed.

Lemma rstrip_keeps_head c s :
  is_space c = false -> exists t, rstrip (String c s) = String c t.
Proof.
  intros Hc. simpl. destruct (rstrip s); [rewrite Hc|]; eauto.
Qed.

Lemma strip_idempotent s : strip (strip s) = strip s.
Proof.
  unfold strip. pose proof (lstrip_clean s) as Hclean.
  destruct (lstrip s) as [|c t]; [done|].
  destruct (rstrip_keeps_head c t Hclean) as [u Hu].
  rewrite Hu. simpl. rewrite Hclean, <- Hu. apply rstrip_idempotent.
Qed.

Section Placement.

Variable P : platform.
Variable self : HomeAssistant.

(** X5: a placement lookup makes exactly one request whatever the answer.
    It raises only what the request raises; a placement it returns is the
    stripped text of a 200 answer, is never the empty string and has no
    white space left at either end. *)
Theorem get_entity_area_shape id w :
  let out := get_entity_area P self id w in
  let answer := P (trace w) (area_request self id) in
  trace (snd out) = (trace w ++ [area_request self id])%list
  /\ (forall e, fst out = Raise e <-> answer = Raise e)
  /\ (forall a, fst out = Ok (Some a) ->
        clean_name a
        /\ exists r, answer = Ok r /\ status_code r = 200 /\ a = strip (text r)).
Proof.
  intros out answer. subst out. rewrite get_entity_area_run. fold answer.
  destruct answer as [r|x].
  - destruct (Z.eqb_spec (status_code r) 200) as [H200|Hne]; simpl.
    + split; [done|]. split; [done|]. intros a Ha.
      destruct (String.eqb_spec (strip (text r)) "") as [|Hnonempty]; [done|].
      injection Ha as <-. split; [|eauto].
      split; [apply strip_idempotent|done].
    + split; [done|]. split; done.
  - split; [done|]. split; [|done].
    intros e. split; intros H; by injection H as ->.
Qed.

End Placement.

(** ** Entity detail *)

Section Info.

Variable P : platform.
Variable json_dumps : jvalue -> string.
Variable self : HomeAssistant.

Local Abbreviation info := (get_entity_info P json_dumps self).

(** [get_entity_info] spelled out after a 200 answer with a decoded body. *)
Lemma get_entity_info_run id w r data :
  P (trace w) (state_request self id) = Ok r ->
  status_code r = 200 ->
  json r = Ok data ->
  info id w =
    let w1 := sent w (state_request self id) in
    match getitem data "state" with
    | Raise e => (Raise e, w1)
    | Ok state =>
        match get_entity_area P self id w1 with
        | (Raise e, w2) => (Raise e, w2)
        | (Ok area, w2) =>
            match getitem data "attributes" with
            | Raise e => (Raise e, w2)
            | Ok attributes =>
                (Ok (json_dumps
                       (JObj [("state", state); ("area", area_json area);
                              ("attributes", attributes)])),
                 w2)
            end
        end
    end.
Proof.
  intros Hr H200 Hjson. unfold get_entity_info, bind, send, lift.
  rewrite Hr, H200, Hjson. simpl.
  destruct (getitem data "state") as [state|e]; [|done].
  fold (sent w (state_request self id)).
  destruct (get_entity_area _ _ _ _) as [[area|e] w2]; [|done].
  by destruct (getitem data "attributes").
Qed.

(** X6: when the state read is answered with 200 and a body that has a
    [state] and [attributes], and the placement lookup is answered, the
    detail is the JSON object of that state, the placement the lookup gives
    and those attributes; the read and the lookup are the two requests
    made, in that order. *)
Theorem get_entity_info_payload id w r data state attributes a :
  P (trace w) (state_request self id) = Ok r ->
  status_code r = 200 ->
  json r = Ok data ->
  getitem data "state" = Ok state ->
  getitem data "attributes" = Ok attributes ->
  P (trace w ++ [state_request self id])%list (area_request self id) = Ok a ->
  exists area w',
    info id w
    = (Ok (json_dumps
             (JObj [("state", state); ("area", area_json area);
                    ("attributes", attributes)])),
       w')
    /\ get_entity_area P self id (sent w (state_request self id)) = (Ok area, w')
    /\ trace w' = (trace w ++ [state_request self id; area_request self id])%list.
Proof.
  intros Hr H200 Hjson Hstate Hattr Ha.
  rewrite (get_entity_info_run id w r data Hr H200 Hjson). simpl.
  rewrite Hstate, Hattr.
  pose proof (get_entity_area_run P self id (sent w (state_request self id))) as Hrun.
  simpl in Hrun. rewrite Ha in Hrun.
  destruct (get_entity_area _ _ _ _) as [[area|e] w2] eqn:Harea.
  - exists area, w2. split; [done|]. split; [done|].
    destruct (status_code a =? 200); injection Hrun as _ ->; simpl;
      by rewrite <- app_assoc.
  - by destruct (status_code a =? 200).
Qed.

(** X7: when the state read is answered with another status, the detail is
    the JSON object whose [error] item holds the status and the body; no
    placement lookup is made. *)
Theorem get_entity_info_unavailable id w r :
  P (trace w) (state_request self id) = Ok r ->
  status_code r <> 200 ->
  info id w
  = (Ok (json_dumps
           (JObj [("error",
                   JStr ("Error: " +:+ pretty (status_code r) +:+ " - " +:+ text r))])),
     sent w (state_request self id)).
Proof.
  intros Hr Hne. unfold get_entity_info, bind, send. rewrite Hr.
  by destruct (Z.eqb_spec (status_code r) 200).
Qed.

(** X8: there is no handler in [get_entity_info].  A 200 body that is an
    object without [state] makes it raise [KeyError] before any placement
    lookup; a body with [state] and without [attributes] makes it raise
    [KeyError] once the placement lookup has been made and answered. *)
Theorem get_entity_info_missing_key id w r fields :
  P (trace w) (state_request self id) = Ok r ->
  status_code r = 200 ->
  json r = Ok (JObj fields) ->
  (assoc "state" fields = None ->
   info id w
   = (Raise (Exception "KeyError" "'state'"), sent w (state_request self id)))
  /\ (forall state a,
        assoc "state" fields = Some state ->
        assoc "attributes" fields = None ->
        P (trace w ++ [state_request self id])%list (area_request self id) = Ok a ->
        fst (info id w) = Raise (Exception "KeyError" "'attributes'")
        /\ trace (snd (info id w))
           = (trace w ++ [state_request self id; area_request self id])%list).
Proof.
  intros Hr H200 Hjson.
  rewrite (get_entity_info_run id w r (JObj fields) Hr H200 Hjson). simpl.
  split.
  - by intros ->.
  - intros state a -> -> Ha.
    rewrite get_entity_area_run. simpl. rewrite Ha.
    destruct (status_code a =? 200); simpl; by rewrite <- app_assoc.
Qed.

End Info.

(** ** The resolver on snapshots of any shape *)

Section Snapshots.

Variable P : platform.
Variable partial_ratio : string -> string -> Z.
Variable lower : string -> string.
Variable json_dumps : jvalue -> string.
Variable self : HomeAssistant.
Variable query : string.

Local Abbreviation score := (entry_score partial_ratio lower query).
Local Abbreviation search :=
  (search_smart_home_devices P partial_ratio lower json_dumps self query).
Local Abbreviation loop := (search_loop P partial_ratio lower self query).
Local Abbreviation area_query := (fun f : string * string => area_request self (fst f)).

Lemma search_loop_app l1 l2 acc w :
  loop (l1 ++ l2)%list acc w =
    match loop l1 acc w with
    | (Ok acc', w') => loop l2 acc' w'
    | (Raise e, w') => (Raise e, w')
    end.
Proof.
  revert acc w. induction l1 as [|e l1 IH]; intros acc w; [done|].
  simpl. unfold bind.
  destruct (search_step _ _ _ _ _ _ _ _) as [[acc'|x] w']; [apply IH|done].
Qed.

(** The search after a 200 answer, by what the body iterates to. *)
Lemma search_after_200 w r :
  P (trace w) (states_request self) = Ok r ->
  status_code r = 200 ->
  search w =
    match rbind (json r) iterate with
    | Raise e => (Raise e, sent w (states_request self))
    | Ok all_entities =>
        match loop all_entities [] (sent w (states_request self)) with
        | (Ok pre, w') =>
            (Ok (json_dumps (JArr (map candidate_json (sort_desc pre)))), w')
        | (Raise e, w') => (Raise e, w')
        end
    end.
Proof.
  intros Hr H200. unfold search_smart_home_devices, bind, send.
  rewrite Hr, H200. simpl. unfold search_matches, bind, lift.
  fold (sent w (states_request self)).
  destruct (rbind (json r) iterate) as [all_entities|e]; [|done].
  by destruct (loop all_entities [] _) as [[pre|e] w'].
Qed.

(** X9: a 200 body with nothing to iterate over (an empty list, and just as
    well an empty object or an empty string) gives the empty JSON list, and
    the snapshot read is the only request. *)
Theorem search_empty_snapshot w r data :
  P (trace w) (states_request self) = Ok r ->
  status_code r = 200 ->
  json r = Ok data ->
  iterate data = Ok [] ->
  search w = (Ok (json_dumps (JArr [])), sent w (states_request self)).
Proof.
  intros Hr H200 Hjson Hiter. rewrite (search_after_200 w r Hr H200).
  rewrite Hjson. simpl. by rewrite Hiter.
Qed.

(** X10: there is no handler in the search.  A 200 body that is not a list
    and is not empty (an object with items, a text, a number, a boolean,
    null) makes it raise [TypeError], with the snapshot read as the only
    request. *)
Theorem search_body_not_a_list w r data :
  P (trace w) (states_request self) = Ok r ->
  status_code r = 200 ->
  json r = Ok data ->
  (forall items, data <> JArr items) ->
  iterate data <> Ok [] ->
  exists e,
    search w = (Raise e, sent w (states_request self))
    /\ exn_class e = "TypeError".
Proof.
  intros Hr H200 Hjson Hlist Hsome. rewrite (search_after_200 w r Hr H200).
  rewrite Hjson. simpl.
  destruct data as [| | | |s|items|fields]; simpl in *; eauto.
  - destruct s as [|c s]; [done|]. simpl. unfold bind, search_step, bind, lift.
    simpl. eauto.
  - by destruct (Hlist items).
  - destruct fields as [|[k v] fields]; [done|]. simpl.
    unfold bind, search_step, bind, lift. simpl. eauto.
Qed.

(** X11: an entry the loop cannot read ends the search with the exception
    of that entry (a [KeyError] for an object without [entity_id]).  The
    candidates found before it are not returned; the placement queries made
    for them are all the requests after the snapshot read. *)
Theorem search_unreadable_entry w r good entries bad rest e :
  P (trace w) (states_request self) = Ok r ->
  status_code r = 200 ->
  json r = Ok (JArr (good ++ bad :: rest)%list) ->
  decoded good entries ->
  entity_fields bad = Raise e ->
  (forall h i, exists a, P h (area_request self i) = Ok a) ->
  (forall fields, bad = JObj fields -> assoc "entity_id" fields = None ->
                  e = Exception "KeyError" "'entity_id'")
  /\ fst (search w) = Raise e
  /\ trace (snd (search w))
     = (trace w ++ states_request self
          :: map area_query (filter (fun f => 70 < score f) entries))%list.
Proof.
  intros Hr H200 Hjson Hdec Hbad Hans. split.
  - intros fields -> Hnone. unfold entity_fields in Hbad. simpl in Hbad.
    rewrite Hnone in Hbad. simpl in Hbad. by injection Hbad as <-.
  - rewrite (search_after_200 w r Hr H200), Hjson. simpl.
    rewrite search_loop_app.
    destruct (search_loop_run P partial_ratio lower self query (fun _ => True)
                (get_entity_area_answered P self Hans) good entries Hdec []
                (sent w (states_request self)))
      as (pre & w' & -> & Htr & _).
    simpl. unfold bind, search_step, bind, lift. rewrite Hbad. simpl.
    split; [done|]. rewrite Htr. simpl. by rewrite <- app_assoc.
Qed.

End Snapshots.

(** ** Scores and ranking *)

Section Ranking.

Variable P : platform.
Variable partial_ratio : string -> string -> Z.
Variable lower : string -> string.
Variable json_dumps : jvalue -> string.
Variable self : HomeAssistant.

Local Abbreviation search :=
  (search_smart_home_devices P partial_ratio lower json_dumps self).
Local Abbreviation loop := (search_loop P partial_ratio lower self).

(** X12: the [match_score] of every candidate returned is the larger of
    the two scores of its own identifier and name, and is above 70; with a
    scorer that stays within 0..100 it is at most 100. *)
Theorem search_scores query w r snapshot entries :
  P (trace w) (states_request self) = Ok r ->
  status_code r = 200 ->
  json r = Ok (JArr snapshot) ->
  decoded snapshot entries ->
  (forall h i, exists a, P h (area_request self i) = Ok a) ->
  exists cands w',
    search query w = (Ok (json_dumps (JArr (map candidate_json cands))), w')
    /\ Forall (fun c =>
                 match_score c
                 = Z.max (partial_ratio (lower query) (lower (entity_id c)))
                         (partial_ratio (lower query) (lower (entity_name c)))
                 /\ 70 < match_score c) cands
    /\ ((forall a b, 0 <= partial_ratio a b <= 100) ->
        Forall (fun c => match_score c <= 100) cands).
Proof.
  intros Hr H200 Hjson Hdec Hans.
  destruct (search_run P partial_ratio lower json_dumps self query (fun _ => True)
              w r snapshot entries Hr H200 Hjson Hdec
              (get_entity_area_answered P self Hans))
    as (pre & w' & Hrun & _ & Hmade & _).
  exists (sort_desc pre), w'. split; [done|].
  assert (Hall : Forall (fun c =>
                   match_score c
                   = Z.max (partial_ratio (lower query) (lower (entity_id c)))
                           (partial_ratio (lower query) (lower (entity_name c)))
                   /\ 70 < match_score c) (sort_desc pre)).
  { rewrite sort_desc_perm. apply Forall_forall. intros c Hc.
    destruct (Forall2_elem_of_l _ _ _ _ Hmade Hc) as (f & Hf & Hcf & Hs).
    apply list_elem_of_filter in Hf as [Hacc _].
    rewrite Hs. split; [|done]. by rewrite <- Hcf. }
  split; [done|]. intros Hbound.
  eapply Forall_impl; [exact Hall|]. intros c [-> _].
  pose proof (Hbound (lower query) (lower (entity_id c))).
  pose proof (Hbound (lower query) (lower (entity_name c))). lia.
Qed.

(** X13: the first candidate returned is a best match over the whole
    snapshot: no entry, accepted or not, scores higher; and nothing is
    returned only when no entry scores above 70. *)
Theorem search_first_is_best query w r snapshot entries :
  P (trace w) (states_request self) = Ok r ->
  status_code r = 200 ->
  json r = Ok (JArr snapshot) ->
  decoded snapshot entries ->
  (forall h i, exists a, P h (area_request self i) = Ok a) ->
  exists cands w',
    search query w = (Ok (json_dumps (JArr (map candidate_json cands))), w')
    /\ (forall c others, cands = c :: others ->
          forall f, f ∈ entries ->
                    entry_score partial_ratio lower query f <= match_score c)
    /\ (cands = [] <->
        forall f, f ∈ entries -> entry_score partial_ratio lower query f <= 70).
Proof.
  intros Hr H200 Hjson Hdec Hans.
  destruct (search_run P partial_ratio lower json_dumps self query (fun _ => True)
              w r snapshot entries Hr H200 Hjson Hdec
              (get_entity_area_answered P self Hans))
    as (pre & w' & Hrun & _ & Hmade & _).
  exists (sort_desc pre), w'. split; [done|].
  pose proof (sort_desc_sorted pre) as Hsorted.
  pose proof (sort_desc_perm pre) as Hperm.
  split.
  - intros c others Heq f Hf. rewrite Heq in Hsorted, Hperm.
    apply StronglySorted_inv in Hsorted as [_ Hhead].
    assert (Hc : c ∈ pre) by (rewrite <- Hperm; left).
    destruct (Forall2_elem_of_l _ _ _ _ Hmade Hc) as (g & Hg & _ & Hcs).
    apply list_elem_of_filter in Hg as [Hgacc _].
    destruct (decide (70 < entry_score partial_ratio lower query f)) as [Hacc|Hrej];
      [|lia].
    assert (Hin : f ∈ filter (fun f => 70 < entry_score partial_ratio lower query f)
                    entries) by (by apply list_elem_of_filter).
    destruct (Forall2_elem_of_r _ _ _ _ Hmade Hin) as (d & Hd & _ & Hds).
    rewrite <- Hperm in Hd. rewrite <- Hds.
    apply elem_of_cons in Hd as [->|Hd]; [lia|].
    rewrite Forall_forall in Hhead. apply (Hhead d Hd).
  - split.
    + intros Hnil f Hf.
      destruct (decide (70 < entry_score partial_ratio lower query f)) as [Hacc|Hrej];
        [|lia].
      assert (Hin : f ∈ filter (fun f => 70 < entry_score partial_ratio lower query f)
                      entries) by (by apply list_elem_of_filter).
      destruct (Forall2_elem_of_r _ _ _ _ Hmade Hin) as (d & Hd & _).
      rewrite <- Hperm, Hnil in Hd. by apply elem_of_nil in Hd.
    + intros Hall. destruct (sort_desc pre) as [|c others] eqn:Hs; [done|].
      assert (Hc : c ∈ pre) by (rewrite <- Hperm; left).
      destruct (Forall2_elem_of_l _ _ _ _ Hmade Hc) as (g & Hg & _).
      apply list_elem_of_filter in Hg as [Hgacc Hg].
      specialize (Hall g Hg). lia.
Qed.

Lemma search_loop_fields query s1 s2 entries :
  decoded s1 entries -> decoded s2 entries ->
  forall acc w, loop query s1 acc w = loop query s2 acc w.
Proof.
  intros H1. revert s2.
  induction H1 as [|e1 f s1 entries Hf1 _ IH]; intros s2 H2; inversion H2 as [|e2 ? s2' ? Hf2 H2']; subst;
    intros acc w; [done|].
  simpl. unfold bind.
  rewrite (search_step_run P partial_ratio lower self query acc e1 f w Hf1).
  rewrite (search_step_run P partial_ratio lower self query acc e2 f w Hf2).
  destruct (bool_decide _); [|by apply IH].
  destruct (get_entity_area _ _ _ _) as [[area|x] w']; [by apply IH|done].
Qed.

(** X14: the search reads two things of an entry, its identifier and its
    friendly name.  Two snapshots whose entries agree on these, whatever
    their states and other attributes, give the same candidates and the
    same requests. *)
Theorem search_reads_two_fields query r1 r2 s1 s2 entries w :
  json r1 = Ok (JArr s1) ->
  json r2 = Ok (JArr s2) ->
  decoded s1 entries ->
  decoded s2 entries ->
  search_matches P partial_ratio lower self query r1 w
  = search_matches P partial_ratio lower self query r2 w.
Proof.
  intros H1 H2 Hd1 Hd2. unfold search_matches, bind, lift.
  rewrite H1, H2. simpl.
  by rewrite (search_loop_fields query s1 s2 entries Hd1 Hd2).
Qed.

Lemma search_loop_lower q1 q2 :
  lower q1 = lower q2 ->
  forall l acc w, loop q1 l acc w = loop q2 l acc w.
Proof.
  intros Hq. induction l as [|e l IH]; intros acc w; [done|].
  simpl. unfold bind, search_step, bind, id_score, name_score. rewrite Hq.
  destruct (lift _ _) as [[fields|x] w1]; [|done].
  destruct (_ || _); [|apply IH].
  destruct (get_entity_area _ _ _ _) as [[area|x] w2]; [apply IH|done].
Qed.

(** X15: the query matters only through its lower-cased form: two queries
    that lower-case to the same text give the same result and the same
    requests. *)
Theorem search_case_insensitive q1 q2 w :
  lower q1 = lower q2 ->
  search_smart_home_devices P partial_ratio lower json_dumps self q1 w
  = search_smart_home_devices P partial_ratio lower json_dumps self q2 w.
Proof.
  intros Hq. unfold search_smart_home_devices, bind, search_matches, bind.
  destruct (send _ _ _) as [[r|x] w1]; [|done].
  destruct (status_code r =? 200); [|done].
  destruct (lift _ _) as [[l|x] w2]; [|done].
  by rewrite (search_loop_lower q1 q2 Hq).
Qed.

End Ranking.

(** ** Where the requests go *)

Section Frame.

Variable P : platform.
Variable self : HomeAssistant.

Lemma only_added_refl w : only_added self w w.
Proof. exists []. by rewrite app_nil_r. Qed.

Lemma only_added_trans w1 w2 w3 :
  only_added self w1 w2 -> only_added self w2 w3 -> only_added self w1 w3.
Proof.
  intros (n1 & H1 & F1) (n2 & H2 & F2). exists (n1 ++ n2)%list.
  rewrite H2, H1, <- app_assoc. split; [done|]. by apply Forall_app.
Qed.

Lemma tidy_ret {A} (a : A) : tidy self (ret a).
Proof. intros w. apply only_added_refl. Qed.

Lemma tidy_lift {A} (r : result A) : tidy self (lift r).
Proof. intros w. apply only_added_refl. Qed.

Lemma tidy_print line : tidy self (print line).
Proof. intros w. exists []. simpl. by rewrite app_nil_r. Qed.

Lemma tidy_send req : addressed self req -> tidy self (send P req).
Proof. intros Hreq w. exists [req]. split; [done|]. by constructor. Qed.

Lemma tidy_bind {A B} (m : M A) (k : A -> M B) :
  tidy self m -> (forall a, tidy self (k a)) -> tidy self (bind m k).
Proof.
  intros Hm Hk w. unfold bind. specialize (Hm w).
  destruct (m w) as [[a|e] w1]; [|exact Hm].
  eapply only_added_trans; [exact Hm|apply Hk].
Qed.

Lemma tidy_try_except {A} (m : M A) (h : exception -> M A) :
  tidy self m -> (forall e, tidy self (h e)) -> tidy self (try_except m h).
Proof.
  intros Hm Hh w. unfold try_except. specialize (Hm w).
  destruct (m w) as [[a|e] w1]; [exact Hm|].
  eapply only_added_trans; [exact Hm|apply Hh].
Qed.

Lemma prefix_app_app (a b c : string) :
  String.prefix (a +:+ b) (a +:+ (b +:+ c)) = true.
Proof. rewrite <- string_app_assoc. apply prefix_app. Qed.

Lemma addressed_service domain service id kwargs :
  addressed self (service_request self domain service id kwargs).
Proof.
  split; [|done].
  apply (prefix_app_app (base_url self) "/api/"
           ("services/" +:+ domain +:+ "/" +:+ service)).
Qed.

Lemma addressed_area id : addressed self (area_request self id).
Proof. split; [|done]. apply (prefix_app_app (base_url self) "/api/" "template"). Qed.

Lemma addressed_state id : addressed self (state_request self id).
Proof.
  split; [|done]. apply (prefix_app_app (base_url self) "/api/" ("states/" +:+ id)).
Qed.

Lemma addressed_states : addressed self (states_request self).
Proof. split; [|done]. apply (prefix_app_app (base_url self) "/api/" "states"). Qed.

Ltac tidy_steps :=
  repeat first
    [ apply tidy_ret | apply tidy_lift | apply tidy_print
    | apply tidy_send;
      first [ apply addressed_service | apply addressed_area
            | apply addressed_state | apply addressed_states ]
    | apply tidy_bind; [|intros ?]
    | match goal with |- tidy _ (if ?b then _ else _) => destruct b end ].

Lemma tidy_call_service domain service id kwargs :
  tidy self (call_service P self domain service id kwargs).
Proof. unfold call_service. tidy_steps. Qed.

Lemma tidy_get_entity_area id : tidy self (get_entity_area P self id).
Proof. unfold get_entity_area. tidy_steps. Qed.

Lemma tidy_simple_get_state id : tidy self (simple_get_state P self id).
Proof. unfold simple_get_state. tidy_steps. Qed.

Lemma tidy_search_loop partial_ratio lower query l acc :
  tidy self (search_loop P partial_ratio lower self query l acc).
Proof.
  revert acc. induction l as [|e l IH]; intros acc; simpl; [apply tidy_ret|].
  apply tidy_bind; [|intros ?; apply IH].
  unfold search_step. apply tidy_bind; [apply tidy_lift|intros fields].
  destruct (_ || _); [|apply tidy_ret].
  apply tidy_bind; [apply tidy_get_entity_area|intros ?; apply tidy_ret].
Qed.

Lemma tidy_turn_on_light id brightness :
  tidy self (turn_on_light P self id brightness).
Proof.
  unfold turn_on_light.
  apply tidy_bind; [apply tidy_lift|intros ?; apply tidy_call_service].
Qed.

Lemma tidy_change_light_state str_other id state brightness :
  tidy self (change_light_state P str_other self id state brightness).
Proof.
  unfold change_light_state. apply tidy_try_except; [|intros ?; apply tidy_ret].
  unfold change_light_state_body, turn_off_light, report_state.
  destruct state;
    (apply tidy_bind;
     [first [apply tidy_turn_on_light|apply tidy_call_service]
     |intros [|]; [|apply tidy_ret]];
     apply tidy_bind; [apply tidy_simple_get_state|intros ?; apply tidy_ret]).
Qed.

Lemma tidy_search partial_ratio lower json_dumps query :
  tidy self (search_smart_home_devices P partial_ratio lower json_dumps self query).
Proof.
  unfold search_smart_home_devices.
  apply tidy_bind; [apply tidy_send, addressed_states|intros r].
  destruct (_ =? _); [|apply tidy_ret].
  apply tidy_bind; [|intros ?; apply tidy_ret].
  unfold search_matches. apply tidy_bind; [apply tidy_lift|intros l].
  apply tidy_bind; [apply tidy_search_loop|intros ?; apply tidy_ret].
Qed.

Lemma tidy_get_entity_info json_dumps id :
  tidy self (get_entity_info P json_dumps self id).
Proof.
  unfold get_entity_info.
  apply tidy_bind; [apply tidy_send, addressed_state|intros r].
  destruct (_ =? _); [|apply tidy_ret].
  apply tidy_bind; [apply tidy_lift|intros data].
  apply tidy_bind; [apply tidy_lift|intros state].
  apply tidy_bind; [apply tidy_get_entity_area|intros area].
  apply tidy_bind; [apply tidy_lift|intros attributes]. apply tidy_ret.
Qed.

(** X16: whatever the platform answers and whatever the arguments, the
    three tools only add requests to those made before, and every request
    they add goes to a path under [/api/] of the base URL of the instance
    and carries its headers. *)
Theorem tools_requests_addressed :
  (forall str_other id state brightness w,
      only_added self w
        (snd (change_light_state P str_other self id state brightness w)))
  /\ (forall partial_ratio lower json_dumps query w,
        only_added self w
          (snd (search_smart_home_devices P partial_ratio lower json_dumps self query w)))
  /\ (forall json_dumps id w,
        only_added self w (snd (get_entity_info P json_dumps self id w))).
Proof.
  split; [|split]; intros.
  - apply tidy_change_light_state.
  - apply tidy_search.
  - apply tidy_get_entity_info.
Qed.

End Frame.

(** X17: the constructor does not check the environment.  With the two
    variables not set, every request of the three tools goes to a URL that
    starts with [None/api/] and carries [Bearer None] as authorization. *)
Theorem init_unset_environment (getenv : string -> option string) (P : platform) :
  getenv "HOME_ASSISTANT_BASE_URL" = None ->
  getenv "HOME_ASSISTANT_ACCESS_TOKEN" = None ->
  let self := HomeAssistant_init getenv in
  let unset req :=
    String.prefix "None/api/" (request_url req) = true
    /\ request_headers req
       = [("Authorization", "Bearer None"); ("Content-Type", "application/json")] in
  (forall str_other id state brightness w, exists news,
      trace (snd (change_light_state P str_other self id state brightness w))
      = (trace w ++ news)%list /\ Forall unset news)
  /\ (forall partial_ratio lower json_dumps query w, exists news,
        trace (snd (search_smart_home_devices P partial_ratio lower json_dumps
                      self query w))
        = (trace w ++ news)%list /\ Forall unset news)
  /\ (forall json_dumps id w, exists news,
        trace (snd (get_entity_info P json_dumps self id w))
        = (trace w ++ news)%list /\ Forall unset news).
Proof.
  intros Hurl Htoken self unset.
  assert (Hun : forall req, addressed self req -> unset req).
  { intros req [Hp Hh]. unfold unset. subst self. unfold HomeAssistant_init in *.
    simpl in *. rewrite Hurl in Hp. rewrite Htoken in Hh. done. }
  assert (Hall : forall w w', only_added self w w' ->
             exists news, trace w' = (trace w ++ news)%list /\ Forall unset news).
  { intros w w' (news & Htr & Hf). exists news. split; [done|].
    eapply Forall_impl; [exact Hf|exact Hun]. }
  split; [|split]; intros; apply Hall.
  - apply tidy_change_light_state.
  - apply tidy_search.
  - apply tidy_get_entity_info.
Qed.

(** ** The sort is the stable sort *)

Lemma sorted_classes_eq l1 l2 :
  StronglySorted score_ge l1 -> StronglySorted score_ge l2 ->
  (forall s, filter (fun c => match_score c = s) l1
             = filter (fun c => match_score c = s) l2) ->
  l1 = l2.
Proof.
  intros H1. revert l2.
  induction H1 as [|c t Ht IH Hc]; intros l2 H2 Hclass.
  - destruct l2 as [|d u]; [done|].
    specialize (Hclass (match_score d)). by rewrite filter_cons_True in Hclass.
  - destruct H2 as [|d u Hu Hd].
    { specialize (Hclass (match_score c)). by rewrite filter_cons_True in Hclass. }
    assert (Hcd : match_score c <= match_score d).
    { assert (Hin : c ∈ filter (fun x => match_score x = match_score c) (d :: u))
        by (rewrite <- Hclass, filter_cons_True by done; left).
      apply list_elem_of_filter in Hin as [_ Hin].
      apply elem_of_cons in Hin as [->|Hin]; [lia|].
      rewrite Forall_forall in Hd. apply (Hd c Hin). }
    assert (Hdc : match_score d <= match_score c).
    { assert (Hin : d ∈ filter (fun x => match_score x = match_score d) (c :: t))
        by (rewrite Hclass, filter_cons_True by done; left).
      apply list_elem_of_filter in Hin as [_ Hin].
      apply elem_of_cons in Hin as [->|Hin]; [lia|].
      rewrite Forall_forall in Hc. apply (Hc d Hin). }
    assert (Heq : match_score c = match_score d) by lia.
    pose proof (Hclass (match_score c)) as Hs.
    rewrite filter_cons_True in Hs by done.
    rewrite (filter_cons_True _ d) in Hs by done.
    injection Hs as <- Hs. f_equal. apply IH; [done|].
    intros s. specialize (Hclass s). rewrite !filter_cons in Hclass.
    case_decide; [by injection Hclass|done].
Qed.

(** X18: the order of the result is fixed by what the sort promises.  Any
    arrangement that never has a score followed by a higher one and that
    keeps the candidates of each score in their order in [l] is the list
    [sort_desc l]. *)
Theorem stable_sort_unique l l' :
  StronglySorted (fun c d => match_score d <= match_score c) l' ->
  (forall s, filter (fun c => match_score c = s) l'
             = filter (fun c => match_score c = s) l) ->
  l' = sort_desc l.
Proof.
  intros Hsorted Hclass.
  apply sorted_classes_eq; [done|apply sort_desc_sorted|].
  intros s. by rewrite Hclass, sort_desc_stable.
Qed.

(** ** The further properties on the example installations *)

Lemma brightness_in_range_witness :
  exists v,
    request_brightness (write_request ha0 "light.kitchen_sink" true (Some 100))
    = Some (JInt v)
    /\ v = 255.
Proof.
  destruct (brightness_in_range ha0 "light.kitchen_sink" 100 ltac:(lia))
    as (v & Hv & _ & _ & Htop & _).
  exists v. split; [exact Hv|]. apply Htop. reflexivity.
Defined.

Lemma brightness_strictly_increasing_witness :
  exists u v,
    turn_on_data (Some 49) = Ok [("brightness", JInt u)]
    /\ turn_on_data (Some 50) = Ok [("brightness", JInt v)]
    /\ u < v.
Proof.
  apply (brightness_strictly_increasing 49 50); [reflexivity|reflexivity|lia].
Defined.

Lemma brightness_not_clamped_witness :
  (exists v, turn_on_data (Some 101) = Ok [("brightness", JInt v)] /\ 255 < v)
  /\ (exists v, turn_on_data (Some (-1)) = Ok [("brightness", JInt v)] /\ v < 0).
Proof.
  split.
  - destruct (brightness_not_clamped 101 eq_refl) as (v & Hv & _ & Hhigh).
    exists v. split; [exact Hv|]. apply Hhigh. lia.
  - destruct (brightness_not_clamped (-1) eq_refl) as (v & Hv & Hlow & _).
    exists v. split; [exact Hv|]. apply Hlow. lia.
Defined.

Lemma brightness_below_rounded_witness :
  spec_brightness_value 50 - 1 <= brightness_value 50
  /\ brightness_value 50 <= spec_brightness_value 50
  /\ turn_on_data (Some 50) = Ok [("brightness", JInt 127)].
Proof.
  destruct (brightness_below_rounded 50 ltac:(lia)) as (Hlow & Hhigh & Hcode).
  split; [exact Hlow|]. split; [exact Hhigh|]. exact (Hcode eq_refl).
Defined.

Lemma brightness_too_large_witness :
  change_light_state platform_accepting toy_str ha0 "light.kitchen_sink" true
    (Some (10 ^ 400)) w0
  = (Ok "Error changing light state: integer division result too large for a float",
     w0).
Proof.
  apply (proj2 (brightness_too_large ha0 platform_accepting toy_str
                  "light.kitchen_sink" (10 ^ 400) w0
                  ltac:(apply Z.leb_le; vm_compute; reflexivity))).
Defined.

Lemma get_entity_area_shape_witness :
  clean_name "Kitchen"
  /\ exists r,
       platform_kitchen (trace w0) (area_request ha0 "light.kitchen_sink") = Ok r
       /\ status_code r = 200 /\ "Kitchen" = strip (text r).
Proof.
  apply (proj2 (proj2 (get_entity_area_shape platform_kitchen ha0
                         "light.kitchen_sink" w0)) "Kitchen").
  reflexivity.
Defined.

Lemma get_entity_info_payload_witness :
  exists area w',
    get_entity_info platform_kitchen toy_dumps ha0 "light.kitchen_sink" w0
    = (Ok (toy_dumps
             (JObj [("state", JStr "on"); ("area", area_json area);
                    ("attributes", JObj [])])),
       w')
    /\ get_entity_area platform_kitchen ha0 "light.kitchen_sink"
         (sent w0 (state_request ha0 "light.kitchen_sink"))
       = (Ok area, w')
    /\ trace w'
       = (trace w0 ++ [state_request ha0 "light.kitchen_sink";
                       area_request ha0 "light.kitchen_sink"])%list.
Proof.
  exact (get_entity_info_payload platform_kitchen toy_dumps ha0
           "light.kitchen_sink" w0 (Response 200 "" (Ok (state_body "on")))
           (state_body "on") (JStr "on") (JObj [])
           (Response 200 ("Kitchen" +:+ nl) (Ok (JStr "Kitchen")))
           eq_refl eq_refl eq_refl eq_refl eq_refl eq_refl).
Defined.

Lemma get_entity_info_unavailable_witness :
  get_entity_info platform_unavailable toy_dumps ha0 "light.kitchen_sink" w0
  = (Ok (toy_dumps (JObj [("error", JStr "Error: 503 - Service Unavailable")])),
     sent w0 (state_request ha0 "light.kitchen_sink")).
Proof.
  apply (get_entity_info_unavailable platform_unavailable toy_dumps ha0
           "light.kitchen_sink" w0
           (Response 503 "Service Unavailable"
              (Raise (Exception "JSONDecodeError"
                        "Expecting value: line 1 column 1 (char 0)")))).
  - reflexivity.
  - simpl. lia.
Defined.

Lemma get_entity_info_missing_key_witness :
  get_entity_info platform_stateless toy_dumps ha0 "light.kitchen_sink" w0
  = (Raise (Exception "KeyError" "'state'"),
     sent w0 (state_request ha0 "light.kitchen_sink"))
  /\ fst (get_entity_info platform_bare toy_dumps ha0 "light.kitchen_sink" w0)
     = Raise (Exception "KeyError" "'attributes'")
  /\ trace (snd (get_entity_info platform_bare toy_dumps ha0 "light.kitchen_sink" w0))
     = (trace w0 ++ [state_request ha0 "light.kitchen_sink";
                     area_request ha0 "light.kitchen_sink"])%list.
Proof.
  split.
  - apply (proj1 (get_entity_info_missing_key platform_stateless toy_dumps ha0
                    "light.kitchen_sink" w0
                    (Response 200 "" (Ok (JObj [("attributes", JObj [])])))
                    [("attributes", JObj [])] eq_refl eq_refl eq_refl)).
    reflexivity.
  - apply (proj2 (get_entity_info_missing_key platform_bare toy_dumps ha0
                    "light.kitchen_sink" w0
                    (Response 200 "" (Ok (JObj [("state", JStr "on")])))
                    [("state", JStr "on")] eq_refl eq_refl eq_refl)
             (JStr "on") (Response 200 "Kitchen" (Ok (JStr "Kitchen"))));
      reflexivity.
Defined.

Lemma search_empty_snapshot_witness :
  search_smart_home_devices platform_empty toy_ratio toy_lower toy_dumps ha0
    "Kitchen" w0
  = (Ok (toy_dumps (JArr [])), sent w0 (states_request ha0)).
Proof.
  exact (search_empty_snapshot platform_empty toy_ratio toy_lower toy_dumps ha0
           "Kitchen" w0 (Response 200 "[]" (Ok (JArr []))) (JArr [])
           eq_refl eq_refl eq_refl eq_refl).
Defined.

Lemma search_body_not_a_list_witness :
  exists e,
    search_smart_home_devices platform_message toy_ratio toy_lower toy_dumps ha0
      "Kitchen" w0
    = (Raise e, sent w0 (states_request ha0))
    /\ exn_class e = "TypeError".
Proof.
  apply (search_body_not_a_list platform_message toy_ratio toy_lower toy_dumps ha0
           "Kitchen" w0
           (Response 200 "" (Ok (JObj [("message", JStr "API running.")])))
           (JObj [("message", JStr "API running.")]));
    try reflexivity.
  - intros items H. discriminate H.
  - intros H. discriminate H.
Defined.

Lemma platform_broken_answers h i :
  exists a, platform_broken h (area_request ha0 i) = Ok a.
Proof. eexists. reflexivity. Defined.

Lemma search_unreadable_entry_witness :
  fst (search_smart_home_devices platform_broken toy_ratio toy_lower toy_dumps ha0
         "Kitchen" w0)
  = Raise (Exception "KeyError" "'entity_id'")
  /\ trace (snd (search_smart_home_devices platform_broken toy_ratio toy_lower
                   toy_dumps ha0 "Kitchen" w0))
     = [states_request ha0; area_request ha0 "light.kitchen_sink"].
Proof.
  apply (proj2 (search_unreadable_entry platform_broken toy_ratio toy_lower
                  toy_dumps ha0 "Kitchen" w0
                  (Response 200 "" (Ok (JArr snapshot_broken)))
                  [snapshot_entry "light.kitchen_sink" (Some "Kitchen Sink Light");
                   snapshot_entry "light.living_room" (Some "Living Room")]
                  [("light.kitchen_sink", "Kitchen Sink Light");
                   ("light.living_room", "Living Room")]
                  (JObj [("state", JStr "off"); ("attributes", JObj [])])
                  [snapshot_entry "switch.kitchen_fan" (Some "Fan")]
                  (Exception "KeyError" "'entity_id'")
                  eq_refl eq_refl eq_refl
                  ltac:(repeat constructor) eq_refl platform_broken_answers)).
Defined.

Lemma toy_ratio_bounded a b : 0 <= toy_ratio a b <= 100.
Proof. unfold toy_ratio. destruct (String.index 0 a b); lia. Defined.

Lemma search_scores_witness :
  exists cands w',
    search_smart_home_devices platform_home toy_ratio toy_lower toy_dumps ha0
      "Kitchen" w0
    = (Ok (toy_dumps (JArr (map candidate_json cands))), w')
    /\ Forall (fun c => 70 < match_score c) cands
    /\ Forall (fun c => match_score c <= 100) cands.
Proof.
  destruct (search_scores platform_home toy_ratio toy_lower toy_dumps ha0
              "Kitchen" w0 (Response 200 "" (Ok (JArr snapshot0))) snapshot0 entries0
              eq_refl eq_refl eq_refl decoded_snapshot0 platform_home_answers)
    as (cands & w' & Hrun & Hscores & Hbound).
  exists cands, w'. split; [exact Hrun|]. split.
  - eapply Forall_impl; [exact Hscores|]. intros c [_ H]. exact H.
  - exact (Hbound toy_ratio_bounded).
Defined.

Lemma search_first_is_best_witness :
  exists cands w',
    search_smart_home_devices platform_home toy_ratio toy_lower toy_dumps ha0
      "Kitchen" w0
    = (Ok (toy_dumps (JArr (map candidate_json cands))), w')
    /\ (forall c others, cands = c :: others ->
          forall f, f ∈ entries0 ->
                    entry_score toy_ratio toy_lower "Kitchen" f <= match_score c)
    /\ (cands = [] <->
        forall f, f ∈ entries0 -> entry_score toy_ratio toy_lower "Kitchen" f <= 70).
Proof.
  exact (search_first_is_best platform_home toy_ratio toy_lower toy_dumps ha0
           "Kitchen" w0 (Response 200 "" (Ok (JArr snapshot0))) snapshot0 entries0
           eq_refl eq_refl eq_refl decoded_snapshot0 platform_home_answers).
Defined.

Lemma search_reads_two_fields_witness :
  search_matches platform_home toy_ratio toy_lower ha0 "Kitchen"
    (Response 200 "" (Ok (JArr snapshot0))) w0
  = search_matches platform_home toy_ratio toy_lower ha0 "Kitchen"
      (Response 200 "" (Ok (JArr snapshot0'))) w0.
Proof.
  apply (search_reads_two_fields platform_home toy_ratio toy_lower ha0 "Kitchen"
           (Response 200 "" (Ok (JArr snapshot0)))
           (Response 200 "" (Ok (JArr snapshot0'))) snapshot0 snapshot0' entries0 w0
           eq_refl eq_refl decoded_snapshot0).
  repeat constructor.
Defined.

Lemma search_case_insensitive_witness :
  search_smart_home_devices platform_home toy_ratio toy_lower toy_dumps ha0
    "KITCHEN" w0
  = search_smart_home_devices platform_home toy_ratio toy_lower toy_dumps ha0
      "kitchen" w0.
Proof.
  apply (search_case_insensitive platform_home toy_ratio toy_lower toy_dumps ha0
           "KITCHEN" "kitchen" w0).
  reflexivity.
Defined.

Lemma init_unset_environment_witness :
  exists news,
    trace (snd (change_light_state platform_accepting toy_str
                  (HomeAssistant_init env_unset) "light.kitchen_sink" true None w0))
    = (trace w0 ++ news)%list
    /\ Forall (fun req =>
                 String.prefix "None/api/" (request_url req) = true
                 /\ request_headers req
                    = [("Authorization", "Bearer None");
                       ("Content-Type", "application/json")]) news.
Proof.
  apply (proj1 (init_unset_environment env_unset platform_accepting eq_refl eq_refl)).
Defined.

Lemma stable_sort_unique_witness :
  [Candidate "light.kitchen_sink" "Kitchen Sink Light" (Some "Kitchen") 100;
   Candidate "light.hall" "Hall" None 80;
   Candidate "switch.hall_fan" "Hall Fan" None 80]
  = sort_desc cands0.
Proof.
  apply stable_sort_unique.
  - repeat constructor; simpl; lia.
  - intros s. unfold cands0. rewrite !filter_cons. simpl.
    repeat case_decide; first [reflexivity | lia].
Defined.
